(** * gomuks/push: the FCM push gateway, [push.go]

    A shallow embedding of the request pipeline of [push.go]
    (validation, translation to an FCM message, dispatch, mapping of the
    provider's answer to an HTTP status) together with the parts of Go's
    standard library that the pipeline relies on ([encoding/base64] and
    [encoding/json]), and the properties of the pipeline proved over it. *)

From Stdlib Require Import ZArith List String Ascii Bool Lia.
From Stdlib.Strings Require Import Byte.
From stdpp Require Import base gmap strings.
Import ListNotations.

Local Open Scope string_scope.
Local Open Scope list_scope.
Local Open Scope Z_scope.

(** ** Machine integers and bytes *)

(** Go's [int] on the 64-bit targets the gateway is built for: a signed
    64-bit integer, overflow wraps around. *)
Definition wrap_int (z : Z) : Z := (z + 2 ^ 63) mod 2 ^ 64 - 2 ^ 63.

(** [uint(b)] for a byte [b]. *)
Definition uint (b : byte) : Z := Z.of_N (Byte.to_N b).

(** [byte(v)]: the truncating conversion of an unsigned integer. *)
Definition to_byte (v : Z) : byte :=
  match Byte.of_N (Z.to_N (v mod 256)) with
  | Some b => b
  | None => x00
  end.

(** [len(s)] of a slice, as a Go [int]. *)
Definition len {A : Type} (s : list A) : Z := Z.of_nat (length s).

(** The largest slice the Go runtime allocates on a 64-bit target
    ([maxAlloc], 48 address bits). *)
Definition maxAlloc : Z := 2 ^ 48.

(** ** encoding/base64, the standard padded encoding *)

Module base64.

(** The alphabet behind [base64.StdEncoding]. *)
Definition encodeStd : string :=
  "ABCDEFGHIJKLMNOPQRSTUVWXYZabcdefghijklmnopqrstuvwxyz0123456789+/".

Definition StdPadding : ascii := "="%char.

(** [enc.encode[i]], the table is only ever indexed with a 6-bit value. *)
Definition encode (i : Z) : ascii :=
  nth (Z.to_nat i) (list_ascii_of_string encodeStd) zero.

Fixpoint index_from (c : ascii) (tbl : list ascii) (i : Z) : Z :=
  match tbl with
  | [] => 255
  | x :: tbl' => if Ascii.eqb x c then i else index_from c tbl' (i + 1)
  end.

(** [enc.decodeMap[c]]: the position of [c] in the alphabet, 0xff for a
    character outside of it. *)
Definition decodeMap (c : ascii) : Z :=
  index_from c (list_ascii_of_string encodeStd) 0.

(** [EncodedLen] of the padded encoding: [(n + 2) / 3 * 4] on [int]. *)
Definition EncodedLen (n : Z) : Z :=
  wrap_int (Z.quot (wrap_int (n + 2)) 3 * 4).

Definition sextet (val : Z) (shift : Z) : ascii :=
  encode (Z.land (Z.shiftr val shift) 63).

(** [Encode]: every full group of three bytes gives four characters, a
    last group of one or two bytes is padded with [=]. *)
Fixpoint Encode (src : list byte) : list ascii :=
  match src with
  | [] => []
  | [b0] =>
      let val := Z.shiftl (uint b0) 16 in
      [sextet val 18; sextet val 12; StdPadding; StdPadding]
  | [b0; b1] =>
      let val := Z.lor (Z.shiftl (uint b0) 16) (Z.shiftl (uint b1) 8) in
      [sextet val 18; sextet val 12; sextet val 6; StdPadding]
  | b0 :: b1 :: b2 :: rest =>
      let val :=
        Z.lor (Z.lor (Z.shiftl (uint b0) 16) (Z.shiftl (uint b1) 8))
              (uint b2) in
      sextet val 18 :: sextet val 12 :: sextet val 6 :: sextet val 0
        :: Encode rest
  end.

Definition EncodeToString (src : list byte) : string :=
  string_of_list_ascii (Encode src).

Definition is_newline (c : ascii) : bool :=
  Ascii.eqb c "010"%char || Ascii.eqb c "013"%char.

(** The 24-bit value of four decoded sextets, and its three bytes. *)
Definition assemble (d0 d1 d2 d3 : Z) : Z :=
  Z.lor (Z.lor (Z.lor (Z.shiftl d0 18) (Z.shiftl d1 12)) (Z.shiftl d2 6)) d3.

(** One quantum after another, on input without line breaks.  A quantum
    of four alphabet characters gives three bytes; a quantum closed by
    [=] or [==] gives two or one and must end the input (the leftover
    bits are not checked, the encoding is not strict). *)
Fixpoint decodeQuanta (src : list ascii) : option (list byte) :=
  match src with
  | [] => Some []
  | c0 :: c1 :: c2 :: c3 :: rest =>
      let d0 := decodeMap c0 in
      let d1 := decodeMap c1 in
      let d2 := decodeMap c2 in
      let d3 := decodeMap c3 in
      if (d0 =? 255) || (d1 =? 255) then None
      else if d2 =? 255 then
        if Ascii.eqb c2 StdPadding && Ascii.eqb c3 StdPadding then
          match rest with
          | [] => Some [to_byte (Z.shiftr (assemble d0 d1 0 0) 16)]
          | _ => None
          end
        else None
      else if d3 =? 255 then
        if Ascii.eqb c3 StdPadding then
          match rest with
          | [] =>
              let val := assemble d0 d1 d2 0 in
              Some [to_byte (Z.shiftr val 16); to_byte (Z.shiftr val 8)]
          | _ => None
          end
        else None
      else
        let val := assemble d0 d1 d2 d3 in
        match decodeQuanta rest with
        | Some tl =>
            Some (to_byte (Z.shiftr val 16) :: to_byte (Z.shiftr val 8)
                    :: to_byte val :: tl)
        | None => None
        end
  | _ => None
  end.

(** [DecodeString]: carriage returns and line feeds are skipped wherever
    they stand, the rest is decoded quantum by quantum; [None] stands for
    a [CorruptInputError]. *)
Definition DecodeString (s : string) : option (list byte) :=
  decodeQuanta
    (List.filter (fun c => negb (is_newline c)) (list_ascii_of_string s)).

End base64.

(** ** Values shared by the standard library and the gateway *)

(** Go's [(T, error)] results.  The error type is a parameter: of a JSON
    error the handler only asks whether it is nil, of a provider error it
    reads the message. *)
Inductive result (A E : Type) : Type :=
| Ok (a : A)
| Err (e : E).
Arguments Ok {A E} a.
Arguments Err {A E} e.

(** An [error] value of the provider, seen through its [Error()] method. *)
Record error : Type := mkError { Error : string }.

(** ** Unicode helpers of encoding/json *)

Definition code (c : ascii) : Z := Z.of_N (N_of_ascii c).
Definition chr (v : Z) : ascii := ascii_of_N (Z.to_N (v mod 256)).

Module utf8.

Definition RuneError : Z := 65533.

Definition cont (c : ascii) : bool := (128 <=? code c) && (code c <=? 191).

Definition between (lo hi : Z) (c : ascii) : bool :=
  (lo <=? code c) && (code c <=? hi).

(** [EncodeRune]: the UTF-8 bytes of a code point, those of U+FFFD for a
    surrogate half or a value beyond U+10FFFF. *)
Definition EncodeRune (r : Z) : list ascii :=
  if (0 <=? r) && (r <? 128) then [chr r]
  else if (0 <=? r) && (r <? 2048) then
    [chr (192 + r / 64); chr (128 + r mod 64)]
  else if (r <? 0) || (1114111 <? r) || ((55296 <=? r) && (r <=? 57343)) then
    [chr 239; chr 191; chr 189]
  else if r <? 65536 then
    [chr (224 + r / 4096); chr (128 + r / 64 mod 64); chr (128 + r mod 64)]
  else
    [chr (240 + r / 262144); chr (128 + r / 4096 mod 64);
     chr (128 + r / 64 mod 64); chr (128 + r mod 64)].

(** The width of the well-formed UTF-8 sequence at the head of [s], or 0
    when the first byte does not start one ([DecodeRune] then answers
    [RuneError] with width 1). *)
Definition seqlen (s : list ascii) : nat :=
  match s with
  | c0 :: c1 :: tl =>
      if between 194 223 c0 then (if cont c1 then 2%nat else 0%nat)
      else
        let second_ok :=
          if Ascii.eqb c0 (chr 224) then between 160 191 c1
          else if Ascii.eqb c0 (chr 237) then between 128 159 c1
          else if Ascii.eqb c0 (chr 240) then between 144 191 c1
          else if Ascii.eqb c0 (chr 244) then between 128 143 c1
          else cont c1 in
        if between 224 239 c0 then
          match tl with
          | c2 :: _ => if second_ok && cont c2 then 3%nat else 0%nat
          | [] => 0%nat
          end
        else if between 240 244 c0 then
          match tl with
          | c2 :: c3 :: _ =>
              if second_ok && cont c2 && cont c3 then 4%nat else 0%nat
          | _ => 0%nat
          end
        else 0%nat
  | _ => 0%nat
  end.

End utf8.

(** ** encoding/json: reading one value from the body *)

Module json.

#[warnings="-register-all"] Inductive Value : Type :=
| Null
| Bool (b : bool)
| Number (lit : string)
| String (s : string)
| Array (elems : list Value)
| Object (members : list (string * Value)).

(** The errors of [Decoder.Decode]: [io.EOF] on a body without a value,
    a [SyntaxError] (or [io.ErrUnexpectedEOF]) on malformed JSON, an
    [UnmarshalTypeError] on a value of the wrong JSON type, and the
    [base64.CorruptInputError] of a byte-slice field. *)
Inductive error : Type :=
| EOF
| SyntaxError
| UnmarshalTypeError
| CorruptInputError.

Definition isChar (c : ascii) (lit : string) : bool :=
  match lit with
  | String.String c' EmptyString => Ascii.eqb c c'
  | _ => false
  end.

Definition dquote : ascii := chr 34.

Definition isSpace (c : ascii) : bool :=
  isChar c " " || Ascii.eqb c (chr 9) || Ascii.eqb c (chr 13) || Ascii.eqb c (chr 10).

Definition isDigit (c : ascii) : bool := (48 <=? code c) && (code c <=? 57).

Fixpoint skipSpace (s : list ascii) : list ascii :=
  match s with
  | c :: tl => if isSpace c then skipSpace tl else s
  | [] => []
  end.

Fixpoint stripPrefix (p s : list ascii) : option (list ascii) :=
  match p, s with
  | [], _ => Some s
  | a :: p', b :: s' => if Ascii.eqb a b then stripPrefix p' s' else None
  | _ :: _, [] => None
  end.

Definition hexDigit (c : ascii) : option Z :=
  let v := code c in
  if (48 <=? v) && (v <=? 57) then Some (v - 48)
  else if (97 <=? v) && (v <=? 102) then Some (v - 87)
  else if (65 <=? v) && (v <=? 70) then Some (v - 55)
  else None.

(** [getu4] on the four characters behind a backslash and [u]. *)
Definition hex4 (h1 h2 h3 h4 : ascii) : option Z :=
  match hexDigit h1, hexDigit h2, hexDigit h3, hexDigit h4 with
  | Some a, Some b, Some c, Some d => Some (((a * 16 + b) * 16 + c) * 16 + d)
  | _, _, _, _ => None
  end.

Definition isSurrogate (r : Z) : bool := (55296 <=? r) && (r <? 57344).

(** [utf16.DecodeRune]. *)
Definition decodeSurrogates (r1 r2 : Z) : Z :=
  if (55296 <=? r1) && (r1 <? 56320) && (56320 <=? r2) && (r2 <? 57344)
  then (r1 - 55296) * 1024 + (r2 - 56320) + 65536
  else utf8.RuneError.

Definition simpleEscape (c : ascii) : option ascii :=
  if Ascii.eqb c dquote || isChar c "\" || isChar c "/" then Some c
  else if isChar c "b" then Some (chr 8)
  else if isChar c "f" then Some (chr 12)
  else if isChar c "n" then Some (chr 10)
  else if isChar c "r" then Some (chr 13)
  else if isChar c "t" then Some (chr 9)
  else None.

Definition prepend (bytes : list ascii) (r : option (list ascii * list ascii))
  : option (list ascii * list ascii) :=
  match r with
  | Some (out, rest) => Some (bytes ++ out, rest)
  | None => None
  end.

(** The characters of a string literal behind its opening quote: the
    unquoted bytes and what follows the closing quote.  Escapes are
    resolved, a [\u] escape of a high surrogate is joined with a low one
    that follows it, ill-formed UTF-8 is replaced by U+FFFD byte by byte;
    a raw control character or a bad escape is a syntax error. *)
Fixpoint scanString (s : list ascii) : option (list ascii * list ascii) :=
  match s with
  | [] => None
  | c :: tl =>
      if Ascii.eqb c dquote then Some ([], tl)
      else if code c <? 32 then None
      else if isChar c "\" then
        match tl with
        | [] => None
        | e :: tl' =>
            if isChar e "u" then
              match tl' with
              | h1 :: h2 :: h3 :: h4 :: tl'' =>
                  match hex4 h1 h2 h3 h4 with
                  | None => None
                  | Some r =>
                      let single := prepend (utf8.EncodeRune r) (scanString tl'') in
                      if isSurrogate r then
                        match tl'' with
                        | bs :: u :: g1 :: g2 :: g3 :: g4 :: tl3 =>
                            let paired :=
                              if isChar bs "\" && isChar u "u" then
                                match hex4 g1 g2 g3 g4 with
                                | Some r2 => decodeSurrogates r r2
                                | None => utf8.RuneError
                                end
                              else utf8.RuneError in
                            if paired =? utf8.RuneError then single
                            else prepend (utf8.EncodeRune paired) (scanString tl3)
                        | _ => single
                        end
                      else single
                  end
              | _ => None
              end
            else
              match simpleEscape e with
              | None => None
              | Some b => prepend [b] (scanString tl')
              end
        end
      else if code c <? 128 then prepend [c] (scanString tl)
      else
        match utf8.seqlen s, tl with
        | 2%nat, c1 :: t2 => prepend [c; c1] (scanString t2)
        | 3%nat, c1 :: c2 :: t3 => prepend [c; c1; c2] (scanString t3)
        | 4%nat, c1 :: c2 :: c3 :: t4 =>
            prepend [c; c1; c2; c3] (scanString t4)
        | _, _ => prepend (utf8.EncodeRune utf8.RuneError) (scanString tl)
        end
  end.

Fixpoint spanDigits (s : list ascii) : list ascii * list ascii :=
  match s with
  | c :: tl =>
      if isDigit c then let (d, rest) := spanDigits tl in (c :: d, rest)
      else ([], s)
  | [] => ([], [])
  end.

(** A number literal at the head of [s]: an optional minus, an integer
    part without leading zero, an optional fraction, an optional
    exponent. *)
Definition scanNumber (s : list ascii) : option (list ascii * list ascii) :=
  let (sign, s1) :=
    match s with
    | c :: tl => if isChar c "-" then ([c], tl) else ([], s)
    | [] => ([], s)
    end in
  let intpart :=
    match s1 with
    | c :: tl =>
        if isChar c "0" then Some ([c], tl)
        else if isDigit c then Some (spanDigits s1)
        else None
    | [] => None
    end in
  match intpart with
  | None => None
  | Some (ds, s2) =>
      let frac :=
        match s2 with
        | c :: tl =>
            if isChar c "." then
              match spanDigits tl with
              | ([], _) => None
              | (fs, rest) => Some (c :: fs, rest)
              end
            else Some ([], s2)
        | [] => Some ([], s2)
        end in
      match frac with
      | None => None
      | Some (fs, s3) =>
          let expo :=
            match s3 with
            | c :: tl =>
                if isChar c "e" || isChar c "E" then
                  let (sg, tl') :=
                    match tl with
                    | c' :: tl'' =>
                        if isChar c' "+" || isChar c' "-" then ([c'], tl'') else ([], tl)
                    | [] => ([], tl)
                    end in
                  match spanDigits tl' with
                  | ([], _) => None
                  | (es, rest) => Some (c :: sg ++ es, rest)
                  end
                else Some ([], s3)
            | [] => Some ([], s3)
            end in
          match expo with
          | None => None
          | Some (es, s4) => Some (sign ++ ds ++ fs ++ es, s4)
          end
      end
  end.

(** One step of the recursive descent: the value at the head of [s]
    (after white space) and the input behind it, given the parsers for
    the members of an object and the elements of an array; [None] is a
    syntax error. *)
Definition valueStep
  (members : list ascii -> option (list (string * Value) * list ascii))
  (elements : list ascii -> option (list Value * list ascii))
  (s : list ascii) : option (Value * list ascii) :=
  match skipSpace s with
  | [] => None
  | c :: tl =>
      if isChar c "{" then
        match skipSpace tl with
        | c' :: tl' =>
            if isChar c' "}" then Some (Object [], tl')
            else
              match members (c' :: tl') with
              | Some (ms, rest) => Some (Object ms, rest)
              | None => None
              end
        | [] => None
        end
      else if isChar c "[" then
        match skipSpace tl with
        | c' :: tl' =>
            if isChar c' "]" then Some (Array [], tl')
            else
              match elements (c' :: tl') with
              | Some (vs, rest) => Some (Array vs, rest)
              | None => None
              end
        | [] => None
        end
      else if Ascii.eqb c dquote then
        match scanString tl with
        | Some (str, rest) => Some (String (string_of_list_ascii str), rest)
        | None => None
        end
      else if isChar c "t" then
        option_map (pair (Bool true)) (stripPrefix (list_ascii_of_string "rue") tl)
      else if isChar c "f" then
        option_map (pair (Bool false)) (stripPrefix (list_ascii_of_string "alse") tl)
      else if isChar c "n" then
        option_map (pair Null) (stripPrefix (list_ascii_of_string "ull") tl)
      else
        match scanNumber (c :: tl) with
        | Some (lit, rest) => Some (Number (string_of_list_ascii lit), rest)
        | None => None
        end
  end.

(** The members of an object from its first key on, up to the closing
    brace. *)
Definition membersStep
  (value : list ascii -> option (Value * list ascii))
  (members : list ascii -> option (list (string * Value) * list ascii))
  (s : list ascii) : option (list (string * Value) * list ascii) :=
  match s with
  | q :: tl =>
      if Ascii.eqb q dquote then
        match scanString tl with
        | None => None
        | Some (key, s1) =>
            match skipSpace s1 with
            | colon :: s2 =>
                if isChar colon ":" then
                  match value s2 with
                  | None => None
                  | Some (v, s3) =>
                      let m := (string_of_list_ascii key, v) in
                      match skipSpace s3 with
                      | d :: s4 =>
                          if isChar d "}" then Some ([m], s4)
                          else if isChar d "," then
                            match members (skipSpace s4) with
                            | Some (ms, rest) => Some (m :: ms, rest)
                            | None => None
                            end
                          else None
                      | [] => None
                      end
                  end
                else None
            | [] => None
            end
        end
      else None
  | [] => None
  end.

(** The elements of an array from its first value on, up to the closing
    bracket. *)
Definition elementsStep
  (value : list ascii -> option (Value * list ascii))
  (elements : list ascii -> option (list Value * list ascii))
  (s : list ascii) : option (list Value * list ascii) :=
  match value s with
  | None => None
  | Some (v, s1) =>
      match skipSpace s1 with
      | d :: s2 =>
          if isChar d "]" then Some ([v], s2)
          else if isChar d "," then
            match elements s2 with
            | Some (vs, rest) => Some (v :: vs, rest)
            | None => None
            end
          else None
      | [] => None
      end
  end.

(** The recursive descent, by recursion on [fuel]: every nested call
    comes after at least one character was consumed, and fuel above twice
    the length of the input is never used up ([parseValue_fuel] below). *)
Fixpoint parseValue (fuel : nat) (s : list ascii) {struct fuel}
  : option (Value * list ascii) :=
  match fuel with
  | O => None
  | S fuel' => valueStep (parseMembers fuel') (parseElements fuel') s
  end

with parseMembers (fuel : nat) (s : list ascii) {struct fuel}
  : option (list (string * Value) * list ascii) :=
  match fuel with
  | O => None
  | S fuel' => membersStep (parseValue fuel') (parseMembers fuel') s
  end

with parseElements (fuel : nat) (s : list ascii) {struct fuel}
  : option (list Value * list ascii) :=
  match fuel with
  | O => None
  | S fuel' => elementsStep (parseValue fuel') (parseElements fuel') s
  end.

(** A parser consumes input: what it leaves is shorter than what it got. *)
Definition shrinks {A : Type} (p : list ascii -> option (A * list ascii)) : Prop :=
  forall s a rest, p s = Some (a, rest) -> (length rest < length s)%nat.

(** [Decoder.readValue] on a fresh decoder: the first value of the
    stream.  The bytes behind an object or array are left unread; a
    number, string or literal at top level must be followed by white
    space or the end of the input.  (The scanner's nesting limit of
    10000 levels is not modelled.) *)
Definition readValue (body : string) : result Value error :=
  let s := list_ascii_of_string body in
  match skipSpace s with
  | [] => Err EOF
  | _ =>
      match parseValue (2 * length s + 2) s with
      | None => Err SyntaxError
      | Some (Object ms, _) => Ok (Object ms)
      | Some (Array vs, _) => Ok (Array vs)
      | Some (v, []) => Ok v
      | Some (v, c :: _) => if isSpace c then Ok v else Err SyntaxError
      end
  end.

(** Field names are matched without regard to case: ASCII letters are
    folded, as are the Kelvin sign (to k) and the long s (to s), the two
    other code points that [foldName] sends to ASCII letters. *)
Fixpoint foldName (s : list ascii) : list ascii :=
  match s with
  | [] => []
  | c :: tl =>
      let v := code c in
      if (97 <=? v) && (v <=? 122) then chr (v - 32) :: foldName tl
      else
        match tl with
        | c1 :: tl1 =>
            if (v =? 197) && (code c1 =? 191) then "S"%char :: foldName tl1
            else
              match tl1 with
              | c2 :: tl2 =>
                  if (v =? 226) && (code c1 =? 132) && (code c2 =? 170)
                  then "K"%char :: foldName tl2
                  else c :: foldName tl
              | [] => c :: foldName tl
              end
        | [] => c :: foldName tl
        end
  end.

(** [strconv.ParseUint(lit, 10, 64)] followed by the overflow check for
    a [uint8]: digits only, and at most 255. *)
Definition parseUint8 (lit : string) : option byte :=
  let ds := list_ascii_of_string lit in
  if forallb isDigit ds && negb (Nat.eqb (length ds) 0) then
    let v := fold_left (fun acc c => acc * 10 + (code c - 48)) ds 0 in
    if v <=? 255 then Some (to_byte v) else None
  else None.

End json.

(** ** firebase.google.com/go/v4/messaging: the message handed to FCM *)

Module messaging.

Record AndroidConfig : Type := mkAndroidConfig {
  RestrictedPackageName : string;
  Priority : string
}.

(** The fields of [messaging.Message] that [ToFCM] sets; every other
    field keeps its zero value. *)
Record Message : Type := mkMessage {
  Data : gmap string string;
  Android : AndroidConfig;
  Token : string
}.

End messaging.

(** ** net/http and zerolog: what the handler does to the outside *)

Module http.
Definition StatusOK : Z := 200.
Definition StatusBadRequest : Z := 400.
Definition StatusNotFound : Z := 404.
Definition StatusRequestEntityTooLarge : Z := 413.
Definition StatusInternalServerError : Z := 500.

(** What [handlePushProxy] reads of a [*http.Request]: [r.URL.Path],
    [r.ContentLength] (an [int64], -1 when the transport declares no
    length, as with chunked transfer encoding) and the bytes that
    [r.Body] delivers. *)
Record Request : Type := mkRequest {
  Path : string;
  ContentLength : Z;
  Body : string
}.
End http.

Module zerolog.
Inductive Level : Type := InfoLevel | ErrorLevel.

(** One log event: its level, the fields in the order they were added,
    and the message. *)
Record Line : Type := mkLine {
  level : Level;
  fields : list (string * string);
  msg : string
}.

(** [logger.Err(err)]: error level and an ["error"] field for a non-nil
    error, info level and no field for nil. *)
Definition Err (err : option error) : Line :=
  match err with
  | Some e => mkLine ErrorLevel [("error", Error e)] EmptyString
  | None => mkLine InfoLevel [] EmptyString
  end.

Definition Str (key val : string) (l : Line) : Line :=
  mkLine (level l) (fields l ++ [(key, val)]) (msg l).

Definition Msg (m : string) (l : Line) : Line :=
  mkLine (level l) (fields l) m.
End zerolog.

(** The effects of one run of the handler, in the order they happen. *)
Inductive Event : Type :=
| EvDecode (body : string)
    (** [json.NewDecoder(r.Body).Decode(&req)]: the body is read and parsed *)
| EvSend (m : messaging.Message)
    (** [fcmClient.Send(ctx, m)] *)
| EvLog (l : zerolog.Line)
    (** a log line is written *)
| EvWriteHeader (status : Z).
    (** [w.WriteHeader(status)] *)

(** A handler step: it appends its effects to the trace and returns a value. *)
Definition Handler (A : Type) : Type := list Event -> A * list Event.

#[global] Instance handler_ret : MRet Handler :=
  fun A (a : A) tr => (a, tr).

#[global] Instance handler_bind : MBind Handler :=
  fun A B (k : A -> Handler B) (m : Handler A) tr =>
    let (a, tr') := m tr in k a tr'.

Definition emit (e : Event) : Handler unit := fun tr => (tt, tr ++ [e]).

Definition run (h : Handler unit) : list Event := snd (h []).

(** What a trace shows: the status codes written, the messages sent, the
    log lines, and the bodies handed to the JSON decoder. *)
Definition statuses (tr : list Event) : list Z :=
  omap (fun e => match e with EvWriteHeader s => Some s | _ => None end) tr.

Definition sends (tr : list Event) : list messaging.Message :=
  omap (fun e => match e with EvSend m => Some m | _ => None end) tr.

Definition logs (tr : list Event) : list zerolog.Line :=
  omap (fun e => match e with EvLog l => Some l | _ => None end) tr.

Definition decodes (tr : list Event) : list string :=
  omap (fun e => match e with EvDecode b => Some b | _ => None end) tr.

(** ** push.go *)

Record PushRequest : Type := mkPushRequest {
  Token : string;
  Owner : string;
  Payload : list byte;
  HighPriority : bool
}.

(** The zero value a [var req PushRequest] starts with. *)
Definition zeroPushRequest : PushRequest := mkPushRequest EmptyString EmptyString [] false.

Definition GetPriority (pr : PushRequest) : string :=
  if HighPriority pr then "high" else "normal".

Definition maxPayloadLength : Z := 4000.
Definition maxContentLength : Z := 4096.

(** *** Decoding a body into a [PushRequest]

    What [Decode(&req)] does for this struct type and its [json:"..."]
    tags.  A member whose key matches no field is skipped, a field without
    member keeps the value it had, [null] leaves a string or bool alone
    and empties the byte slice.  A value of the wrong JSON type is an
    [UnmarshalTypeError]; the decoder records the first error, goes on,
    and returns it at the end. *)

Inductive Field : Type := FToken | FOwner | FPayload | FHighPriority.

Definition fieldNames : list (string * Field) :=
  [("token", FToken); ("owner", FOwner); ("payload", FPayload);
   ("high_priority", FHighPriority)].

Definition foldString (s : string) : string :=
  string_of_list_ascii (json.foldName (list_ascii_of_string s)).

Definition fieldByName (key : string) : option Field :=
  snd <$> List.find
    (fun nf => String.eqb (foldString (fst nf)) (foldString key))
    fieldNames.

(** A JSON array into the [[]byte]: numbers that fit a byte; a [null]
    element keeps what the slice held at that index. *)
Fixpoint storeBytes (elems : list json.Value) (old : list byte)
  : list byte * option json.error :=
  match elems with
  | [] => ([], None)
  | v :: elems' =>
      let (here, err) :=
        match v with
        | json.Number lit =>
            match json.parseUint8 lit with
            | Some b => (b, None)
            | None => (hd x00 old, Some json.UnmarshalTypeError)
            end
        | json.Null => (hd x00 old, None)
        | _ => (hd x00 old, Some json.UnmarshalTypeError)
        end in
      let (rest, err') := storeBytes elems' (tl old) in
      (here :: rest, match err with Some e => Some e | None => err' end)
  end.

Definition storeField (f : Field) (v : json.Value) (req : PushRequest)
  : PushRequest * option json.error :=
  match f, v with
  | _, json.Null =>
      match f with
      | FPayload => (mkPushRequest (Token req) (Owner req) [] (HighPriority req), None)
      | _ => (req, None)
      end
  | FToken, json.String s =>
      (mkPushRequest s (Owner req) (Payload req) (HighPriority req), None)
  | FOwner, json.String s =>
      (mkPushRequest (Token req) s (Payload req) (HighPriority req), None)
  | FHighPriority, json.Bool b =>
      (mkPushRequest (Token req) (Owner req) (Payload req) b, None)
  | FPayload, json.String s =>
      match base64.DecodeString s with
      | Some p => (mkPushRequest (Token req) (Owner req) p (HighPriority req), None)
      | None => (req, Some json.CorruptInputError)
      end
  | FPayload, json.Array elems =>
      let (p, err) := storeBytes elems (Payload req) in
      (mkPushRequest (Token req) (Owner req) p (HighPriority req), err)
  | _, _ => (req, Some json.UnmarshalTypeError)
  end.

Fixpoint storeMembers (ms : list (string * json.Value)) (req : PushRequest)
  : PushRequest * option json.error :=
  match ms with
  | [] => (req, None)
  | (key, v) :: ms' =>
      let (req', err) :=
        match fieldByName key with
        | Some f => storeField f v req
        | None => (req, None)
        end in
      let (req'', err') := storeMembers ms' req' in
      (req'', match err with Some e => Some e | None => err' end)
  end.

Definition unmarshal (v : json.Value) (req : PushRequest)
  : result PushRequest json.error :=
  match v with
  | json.Null => Ok req
  | json.Object ms =>
      match storeMembers ms req with
      | (req', None) => Ok req'
      | (_, Some e) => Err e
      end
  | _ => Err json.UnmarshalTypeError
  end.

(** [json.NewDecoder(r.Body).Decode(&req)] on a body that is read without
    transport error, [req] starting from its zero value. *)
Definition decodePushRequest (body : string) : result PushRequest json.error :=
  match json.readValue body with
  | Err e => Err e
  | Ok v => unmarshal v zeroPushRequest
  end.

Section Gateway.

(** [fcmPackageName], read once from the environment at start-up. *)
Variable fcmPackageName : string.

(** The JSON decoder applied to the request body: [Ok req] when
    [Decode] returns a nil error and has filled [req]. *)
Context {JSONError : Type}.
Variable jsonDecode : string -> result PushRequest JSONError.

(** [fcmClient.Send]: the message id, or the provider's error. *)
Variable fcmSend : messaging.Message -> result string error.

Definition ToFCM (pr : PushRequest) : messaging.Message :=
  messaging.mkMessage
    {[ "payload" := base64.EncodeToString (Payload pr) ]}
    (messaging.mkAndroidConfig fcmPackageName (GetPriority pr))
    (Token pr).

Definition WriteHeader (status : Z) : Handler unit :=
  emit (EvWriteHeader status).

Definition Decode (body : string) : Handler (result PushRequest JSONError) :=
  emit (EvDecode body);; mret (jsonDecode body).

Definition Send (m : messaging.Message) : Handler (result string error) :=
  emit (EvSend m);; mret (fcmSend m).

Definition Log (l : zerolog.Line) : Handler unit := emit (EvLog l).

Definition handlePushProxy (r : http.Request) : Handler unit :=
  if negb (String.eqb (http.Path r) "/_gomuks/push/fcm") then
    WriteHeader http.StatusNotFound
  else if http.ContentLength r >? maxContentLength then
    WriteHeader http.StatusRequestEntityTooLarge
  else
    decoded ← Decode (http.Body r);
    match decoded with
    | Err _ => WriteHeader http.StatusBadRequest
    | Ok req =>
        if base64.EncodedLen (len (Payload req)) >? maxPayloadLength then
          WriteHeader http.StatusRequestEntityTooLarge
        else
          sent ← Send (ToFCM req);
          match sent with
          | Err err =>
              Log (zerolog.Msg "Failed to send FCM request"
                     (zerolog.Str "owner" (Owner req)
                        (zerolog.Str "push_token" (Token req)
                           (zerolog.Err (Some err)))));;
              if String.eqb (Error err) "Requested entity was not found."
                 || String.eqb (Error err) "SenderId mismatch"
              then WriteHeader http.StatusNotFound
              else WriteHeader http.StatusInternalServerError
          | Ok resp =>
              Log (zerolog.Msg "Sent FCM request"
                     (zerolog.Str "owner" (Owner req)
                        (zerolog.Str "message_id" resp
                           (zerolog.Str "push_token" (Token req)
                              (zerolog.Err None)))));;
              WriteHeader http.StatusOK
          end
    end.

(** The trace of one request. *)
Definition serve (r : http.Request) : list Event := run (handlePushProxy r).

(** The guards of the handler read as the request validator of the
    specification: the request that goes on to translation and dispatch,
    or none when the handler answers 404, 413 or 400 by itself. *)
Definition validated (r : http.Request) : option PushRequest :=
  if String.eqb (http.Path r) "/_gomuks/push/fcm"
     && (http.ContentLength r <=? maxContentLength)
  then
    match jsonDecode (http.Body r) with
    | Ok req =>
        if base64.EncodedLen (len (Payload req)) <=? maxPayloadLength
        then Some req else None
    | Err _ => None
    end
  else None.

End Gateway.

(** ** Requests and provider stubs used in the examples *)

Definition quoted (s : string) : string :=
  String.String json.dquote (s ++ String.String json.dquote EmptyString)%string.

Definition member (key val : string) : string :=
  (quoted key ++ ":" ++ val)%string.

(** A provider that accepts every message under the given id, and one
    that fails every call with the given message. *)
Definition providerAccepts (id : string)
  : messaging.Message -> result string error := fun _ => Ok id.

Definition providerFails (message : string)
  : messaging.Message -> result string error := fun _ => Err (mkError message).

(** A request to the push path that declares the length of its body. *)
Definition pushRequestOf (body : string) : http.Request :=
  http.mkRequest "/_gomuks/push/fcm" (Z.of_nat (String.length body)) body.

(** The same body sent with chunked transfer encoding: no declared length. *)
Definition chunkedRequestOf (body : string) : http.Request :=
  http.mkRequest "/_gomuks/push/fcm" (-1) body.

(** The request body of the specification's first scenario. *)
Definition scenarioBody : string :=
  ("{" ++ member "token" (quoted "abc") ++ "," ++ member "owner" (quoted "u1")
   ++ "," ++ member "payload" (quoted "aGk=") ++ ","
   ++ member "high_priority" "false" ++ "}")%string.


(** A body within 4096 bytes whose payload is 4004 characters of base64,
    3003 zero bytes. *)
Definition largePayloadBody : string :=
  ("{" ++ member "payload" (quoted (string_of_list_ascii (repeat "A"%char 4004)))
   ++ "}")%string.

(** A body of more than 4096 bytes with a small payload. *)
Definition paddedBody : string :=
  ("{" ++ member "owner" (quoted (string_of_list_ascii (repeat "x"%char 5000)))
   ++ "," ++ member "token" (quoted "abc") ++ "}")%string.



(** The check behind the base64 table lemmas, for one 6-bit value. *)
Definition sextet_ok (i : Z) : bool :=
  (base64.decodeMap (base64.encode i) =? i)
  && negb (base64.is_newline (base64.encode i))
  && existsb (Ascii.eqb (base64.encode i))
       (list_ascii_of_string base64.encodeStd).


(** ** Start-up: the environment, [init] and the listen address *)

Module os.

(** [syscall.Setenv] on Unix refuses an empty key, a key with [=] or a
    NUL byte, and a value with a NUL byte. *)
Definition validKey (key : string) : bool :=
  negb (Nat.eqb (String.length key) 0)
  && forallb (fun c => negb (Ascii.eqb c "="%char || Ascii.eqb c zero))
       (list_ascii_of_string key).

Definition validValue (value : string) : bool :=
  forallb (fun c => negb (Ascii.eqb c zero)) (list_ascii_of_string value).

Definition LookupEnv (key : string) (env : gmap string string)
  : option string := env !! key.

Definition Getenv (key : string) (env : gmap string string) : string :=
  default EmptyString (env !! key).

Definition Setenv (key value : string) (env : gmap string string)
  : result (gmap string string) error :=
  if validKey key && validValue value then Ok (<[key := value]> env)
  else Err (mkError "setenv: invalid argument").

End os.

(** [init]: the port defaults to 8080 when the environment has no [PORT];
    [Err] is the panic of [exerrors.PanicIfNotNil]. *)
Definition init (env : gmap string string)
  : result (gmap string string) error :=
  match os.LookupEnv "PORT" env with
  | Some _ => Ok env
  | None => os.Setenv "PORT" "8080" env
  end.

(** [server.Addr] in [main]: [fmt.Sprintf("%s:%s", HOST, PORT)]. *)
Definition serverAddr (env : gmap string string) : string :=
  (os.Getenv "HOST" env ++ ":" ++ os.Getenv "PORT" env)%string.

(** The package variable [fcmPackageName], read from the environment. *)
Definition readPackageName (env : gmap string string) : string :=
  os.Getenv "FCM_PACKAGE_NAME" env.

(** ** Request bodies in the wire format of [PushRequest] *)

(** A character that stands for itself in a JSON string literal: ASCII,
    no control character, neither the quote nor the backslash. *)
Definition plainChar (c : ascii) : bool :=
  (32 <=? code c) && (code c <? 128)
  && negb (Ascii.eqb c json.dquote) && negb (json.isChar c "\").

Definition plain (s : string) : bool :=
  forallb plainChar (list_ascii_of_string s).

(** The JSON object a client sends for a push: the four members under
    their [json] tags, the payload in standard base64. *)
Definition bodyOf (token owner : string) (payload : list byte)
  (high : bool) : string :=
  ("{" ++ member "token" (quoted token) ++ ","
   ++ member "owner" (quoted owner) ++ ","
   ++ member "payload" (quoted (base64.EncodeToString payload)) ++ ","
   ++ member "high_priority" (if high then "true" else "false") ++ "}")%string.

(** * Properties *)

Ltac pow2 :=
  change (2 ^ 6) with 64 in *; change (2 ^ 8) with 256 in *;
  change (2 ^ 12) with 4096 in *; change (2 ^ 16) with 65536 in *;
  change (2 ^ 18) with 262144 in *; change (2 ^ 24) with 16777216 in *.

Ltac divmod := pow2; Z.to_euclidean_division_equations; lia.

Ltac handler_steps :=
  unfold Decode, Send, Log, WriteHeader, emit;
  unfold mbind, mret, handler_bind, handler_ret;
  cbn [app snd fst negb].

(** ** Bytes and bit arithmetic *)

Lemma uint_range (b : byte) : 0 <= uint b < 256.
Proof.
  unfold uint. pose proof (Byte.to_N_bounded b) as Hb.
  lia.
Qed.

Lemma to_byte_mod (v : Z) (b : byte) : v mod 256 = uint b -> to_byte v = b.
Proof.
  intros Hv. unfold to_byte. rewrite Hv. unfold uint.
  rewrite N2Z.id. now rewrite Byte.of_to_N.
Qed.

(** Two bit fields that do not overlap are or-ed by adding them. *)
Lemma lor_disjoint (h lo k : Z) :
  0 <= k -> 0 <= lo < 2 ^ k -> Z.lor (h * 2 ^ k) lo = h * 2 ^ k + lo.
Proof.
  intros Hk Hlo.
  rewrite <- (Z.add_lor_land (h * 2 ^ k) lo).
  assert (Hz : Z.land (h * 2 ^ k) lo = 0); [| rewrite Hz; lia].
  apply Z.bits_inj'. intros n Hn.
  rewrite Z.land_spec, Z.bits_0.
  destruct (Z.lt_ge_cases n k) as [Hlt | Hge].
  - rewrite Z.mul_pow2_bits_low by lia. reflexivity.
  - rewrite (proj2 (Z.testbit_false lo n Hn)); [apply andb_false_r |].
    rewrite Z.div_small; [reflexivity |].
    split; [lia |]. apply Z.lt_le_trans with (2 ^ k); [lia |].
    apply Z.pow_le_mono_r; lia.
Qed.

Lemma land_63 (v : Z) : Z.land v 63 = v mod 64.
Proof. change 63 with (Z.ones 6). now rewrite Z.land_ones by lia. Qed.

Lemma lor_aligned (hi lo k : Z) :
  0 <= k -> 0 <= lo < 2 ^ k -> hi mod 2 ^ k = 0 -> Z.lor hi lo = hi + lo.
Proof.
  intros Hk Hlo Hhi.
  assert (Hp : 0 < 2 ^ k) by (apply Z.pow_pos_nonneg; lia).
  rewrite (Z.div_mod hi (2 ^ k)) by lia. rewrite Hhi, Z.add_0_r.
  rewrite (Z.mul_comm (2 ^ k)). now apply lor_disjoint.
Qed.

(** ** base64: the tables *)

Lemma sextets_ok (i : Z) : 0 <= i < 64 -> sextet_ok i = true.
Proof.
  intros Hi.
  assert (Hall : forallb sextet_ok (List.map Z.of_nat (List.seq 0 64)) = true)
    by (vm_compute; reflexivity).
  rewrite forallb_forall in Hall. apply Hall.
  apply in_map_iff. exists (Z.to_nat i). split; [lia |].
  apply in_seq. lia.
Qed.

Lemma decodeMap_encode (i : Z) :
  0 <= i < 64 -> base64.decodeMap (base64.encode i) = i.
Proof.
  intros Hi. pose proof (sextets_ok i Hi) as H. unfold sextet_ok in H.
  apply andb_prop in H as [H _]. apply andb_prop in H as [H _].
  now apply Z.eqb_eq.
Qed.

Lemma encode_not_newline (i : Z) :
  0 <= i < 64 -> base64.is_newline (base64.encode i) = false.
Proof.
  intros Hi. pose proof (sextets_ok i Hi) as H. unfold sextet_ok in H.
  apply andb_prop in H as [H _]. apply andb_prop in H as [_ H].
  now apply negb_true_iff.
Qed.

Lemma encode_in_alphabet (i : Z) :
  0 <= i < 64 -> In (base64.encode i) (list_ascii_of_string base64.encodeStd).
Proof.
  intros Hi. pose proof (sextets_ok i Hi) as H. unfold sextet_ok in H.
  apply andb_prop in H as [_ H]. apply existsb_exists in H as (c & Hc & Heq).
  apply Ascii.eqb_eq in Heq. now subst.
Qed.

Lemma sextet_index (val shift : Z) :
  0 <= shift -> 0 <= Z.land (Z.shiftr val shift) 63 < 64.
Proof.
  intros Hs. rewrite land_63. apply Z.mod_pos_bound. lia.
Qed.

Lemma decodeMap_sextet (val shift : Z) :
  0 <= shift ->
  base64.decodeMap (base64.sextet val shift) = (val / 2 ^ shift) mod 64.
Proof.
  intros Hs. unfold base64.sextet.
  rewrite decodeMap_encode by now apply sextet_index.
  now rewrite land_63, Z.shiftr_div_pow2.
Qed.

(** ** base64: one quantum *)

Lemma assemble_val (d0 d1 d2 d3 : Z) :
  0 <= d0 < 64 -> 0 <= d1 < 64 -> 0 <= d2 < 64 -> 0 <= d3 < 64 ->
  base64.assemble d0 d1 d2 d3 = d0 * 262144 + d1 * 4096 + d2 * 64 + d3.
Proof.
  intros H0 H1 H2 H3. unfold base64.assemble.
  rewrite !Z.shiftl_mul_pow2 by lia. pow2.
  rewrite (lor_aligned (d0 * 262144) (d1 * 4096) 18) by divmod.
  rewrite (lor_aligned (d0 * 262144 + d1 * 4096) (d2 * 64) 12) by divmod.
  rewrite (lor_aligned (d0 * 262144 + d1 * 4096 + d2 * 64) d3 6) by divmod.
  reflexivity.
Qed.

Lemma group_val (a b c : Z) :
  0 <= a < 256 -> 0 <= b < 256 -> 0 <= c < 256 ->
  Z.lor (Z.lor (Z.shiftl a 16) (Z.shiftl b 8)) c = a * 65536 + b * 256 + c.
Proof.
  intros Ha Hb Hc. rewrite !Z.shiftl_mul_pow2 by lia. pow2.
  rewrite (lor_aligned (a * 65536) (b * 256) 16) by divmod.
  rewrite (lor_aligned (a * 65536 + b * 256) c 8) by divmod.
  reflexivity.
Qed.

(** ** base64: encoding, then decoding *)

(** Induction over a byte sequence three bytes at a time, the way
    [Encode] walks it. *)
Lemma list_ind3 {A : Type} (P : list A -> Prop) :
  P [] -> (forall a, P [a]) -> (forall a b, P [a; b]) ->
  (forall a b c l, P l -> P (a :: b :: c :: l)) ->
  forall l, P l.
Proof.
  intros H0 H1 H2 H3.
  assert (Hall : forall l, P l /\ (forall a, P (a :: l)) /\ (forall a b, P (a :: b :: l))).
  { induction l as [| x l (IH0 & IH1 & IH2)]; [now auto |].
    split; [apply IH1 |]. split; [intros a; apply IH2 |].
    intros a b. now apply H3. }
  intros l. apply Hall.
Qed.

Lemma decodeQuanta_full (val : Z) (rest : list ascii) :
  0 <= val < 16777216 ->
  base64.decodeQuanta
    (base64.sextet val 18 :: base64.sextet val 12 :: base64.sextet val 6
       :: base64.sextet val 0 :: rest)
  = match base64.decodeQuanta rest with
    | Some tl =>
        Some (to_byte (Z.shiftr val 16) :: to_byte (Z.shiftr val 8)
                :: to_byte val :: tl)
    | None => None
    end.
Proof.
  intros Hval.
  cbn [base64.decodeQuanta].
  rewrite !decodeMap_sextet by lia.
  assert (Hm : forall k, 0 <= (val / 2 ^ k) mod 64 < 64)
    by (intros k; apply Z.mod_pos_bound; lia).
  replace ((val / 2 ^ 18) mod 64 =? 255) with false by (symmetry; apply Z.eqb_neq; specialize (Hm 18); lia).
  replace ((val / 2 ^ 12) mod 64 =? 255) with false by (symmetry; apply Z.eqb_neq; specialize (Hm 12); lia).
  replace ((val / 2 ^ 6) mod 64 =? 255) with false by (symmetry; apply Z.eqb_neq; specialize (Hm 6); lia).
  replace ((val / 2 ^ 0) mod 64 =? 255) with false by (symmetry; apply Z.eqb_neq; specialize (Hm 0); lia).
  cbn [orb].
  rewrite assemble_val by apply Hm.
  replace ((val / 2 ^ 18) mod 64 * 262144 + (val / 2 ^ 12) mod 64 * 4096
           + (val / 2 ^ 6) mod 64 * 64 + (val / 2 ^ 0) mod 64) with val.
  - reflexivity.
  - change (2 ^ 0) with 1. divmod.
Qed.

Lemma decodeMap_padding : base64.decodeMap base64.StdPadding = 255.
Proof. reflexivity. Qed.

Lemma decodeQuanta_two (val : Z) :
  0 <= val < 16777216 ->
  base64.decodeQuanta
    [base64.sextet val 18; base64.sextet val 12; base64.sextet val 6;
     base64.StdPadding]
  = Some [to_byte (Z.shiftr (val / 64 * 64) 16);
          to_byte (Z.shiftr (val / 64 * 64) 8)].
Proof.
  intros Hval.
  cbn [base64.decodeQuanta].
  rewrite decodeMap_padding, !decodeMap_sextet by lia.
  assert (Hm : forall k, 0 <= (val / 2 ^ k) mod 64 < 64)
    by (intros k; apply Z.mod_pos_bound; lia).
  replace ((val / 2 ^ 18) mod 64 =? 255) with false by (symmetry; apply Z.eqb_neq; specialize (Hm 18); lia).
  replace ((val / 2 ^ 12) mod 64 =? 255) with false by (symmetry; apply Z.eqb_neq; specialize (Hm 12); lia).
  replace ((val / 2 ^ 6) mod 64 =? 255) with false by (symmetry; apply Z.eqb_neq; specialize (Hm 6); lia).
  cbn [orb]. rewrite Z.eqb_refl, Ascii.eqb_refl.
  rewrite assemble_val by (try apply Hm; lia).
  replace ((val / 2 ^ 18) mod 64 * 262144 + (val / 2 ^ 12) mod 64 * 4096
           + (val / 2 ^ 6) mod 64 * 64 + 0) with (val / 64 * 64) by divmod.
  reflexivity.
Qed.

Lemma decodeQuanta_one (val : Z) :
  0 <= val < 16777216 ->
  base64.decodeQuanta
    [base64.sextet val 18; base64.sextet val 12; base64.StdPadding;
     base64.StdPadding]
  = Some [to_byte (Z.shiftr (val / 4096 * 4096) 16)].
Proof.
  intros Hval.
  cbn [base64.decodeQuanta].
  rewrite decodeMap_padding, !decodeMap_sextet by lia.
  assert (Hm : forall k, 0 <= (val / 2 ^ k) mod 64 < 64)
    by (intros k; apply Z.mod_pos_bound; lia).
  replace ((val / 2 ^ 18) mod 64 =? 255) with false by (symmetry; apply Z.eqb_neq; specialize (Hm 18); lia).
  replace ((val / 2 ^ 12) mod 64 =? 255) with false by (symmetry; apply Z.eqb_neq; specialize (Hm 12); lia).
  cbn [orb andb]. rewrite Z.eqb_refl, Ascii.eqb_refl. cbn [andb].
  rewrite assemble_val by (try apply Hm; lia).
  replace ((val / 2 ^ 18) mod 64 * 262144 + (val / 2 ^ 12) mod 64 * 4096
           + 0 * 64 + 0) with (val / 4096 * 4096) by divmod.
  reflexivity.
Qed.

Lemma decodeQuanta_Encode (src : list byte) :
  base64.decodeQuanta (base64.Encode src) = Some src.
Proof.
  induction src as [| a | a b | a b c rest IH] using list_ind3.
  - reflexivity.
  - pose proof (uint_range a) as Ha.
    cbn [base64.Encode]. rewrite Z.shiftl_mul_pow2 by lia. pow2.
    rewrite decodeQuanta_one by lia.
    rewrite Z.shiftr_div_pow2 by lia.
    f_equal. f_equal. apply to_byte_mod. divmod.
  - pose proof (uint_range a) as Ha. pose proof (uint_range b) as Hb.
    cbn [base64.Encode]. rewrite !Z.shiftl_mul_pow2 by lia. pow2.
    rewrite (lor_aligned (uint a * 65536) (uint b * 256) 16) by divmod.
    rewrite decodeQuanta_two by lia.
    rewrite !Z.shiftr_div_pow2 by lia.
    f_equal. f_equal; [| f_equal]; apply to_byte_mod; divmod.
  - pose proof (uint_range a) as Ha. pose proof (uint_range b) as Hb.
    pose proof (uint_range c) as Hc.
    cbn [base64.Encode]. rewrite group_val by assumption.
    rewrite decodeQuanta_full by lia. rewrite IH.
    rewrite !Z.shiftr_div_pow2 by lia.
    f_equal. f_equal; [| f_equal; [| f_equal]]; apply to_byte_mod; divmod.
Qed.

Lemma Encode_no_newline (src : list byte) :
  forallb (fun c => negb (base64.is_newline c)) (base64.Encode src) = true.
Proof.
  induction src as [| a | a b | a b c rest IH] using list_ind3;
    cbn [base64.Encode forallb]; unfold base64.sextet;
    rewrite ?encode_not_newline by (apply sextet_index; lia);
    try rewrite IH; reflexivity.
Qed.

Lemma filter_all {A : Type} (f : A -> bool) (l : list A) :
  forallb f l = true -> List.filter f l = l.
Proof.
  induction l as [| x l IH]; cbn [forallb List.filter]; [reflexivity |].
  intros H. apply andb_prop in H as [Hx Hl]. rewrite Hx. now rewrite IH.
Qed.

(** Decoding what [EncodeToString] produced gives the bytes back. *)
Lemma DecodeString_EncodeToString (src : list byte) :
  base64.DecodeString (base64.EncodeToString src) = Some src.
Proof.
  unfold base64.DecodeString, base64.EncodeToString.
  rewrite list_ascii_of_string_of_list_ascii.
  rewrite filter_all by apply Encode_no_newline.
  apply decodeQuanta_Encode.
Qed.

(** ** base64: the length of the encoding *)

Lemma string_of_list_ascii_length (l : list ascii) :
  String.length (string_of_list_ascii l) = length l.
Proof. induction l as [| c l IH]; cbn; [reflexivity | now rewrite IH]. Qed.

Lemma Encode_len (src : list byte) :
  len (base64.Encode src) = (len src + 2) / 3 * 4.
Proof.
  unfold len.
  induction src as [| a | a b | a b c rest IH] using list_ind3;
    try reflexivity.
  cbn [base64.Encode length]. rewrite !Nat2Z.inj_succ, IH.
  Z.to_euclidean_division_equations; lia.
Qed.

Lemma EncodeToString_length (src : list byte) :
  Z.of_nat (String.length (base64.EncodeToString src)) = (len src + 2) / 3 * 4.
Proof.
  unfold base64.EncodeToString. rewrite string_of_list_ascii_length.
  apply Encode_len.
Qed.

(** On the length of a slice that fits the address space [EncodedLen]
    does not wrap. *)
Lemma EncodedLen_no_wrap (n : Z) :
  0 <= n <= maxAlloc -> base64.EncodedLen n = (n + 2) / 3 * 4.
Proof.
  unfold maxAlloc, base64.EncodedLen, wrap_int. intros Hn.
  change (2 ^ 48) with 281474976710656 in Hn.
  change (2 ^ 63) with 9223372036854775808.
  change (2 ^ 64) with 18446744073709551616.
  rewrite (Z.mod_small (n + 2 + _)) by lia.
  replace (n + 2 + 9223372036854775808 - 9223372036854775808) with (n + 2) by lia.
  rewrite Z.quot_div_nonneg by lia.
  assert (Hq : 0 <= (n + 2) / 3 * 4 < 9223372036854775808)
    by (Z.to_euclidean_division_equations; lia).
  rewrite Z.mod_small by lia. lia.
Qed.

(** [EncodedLen] of the payload's length is the length of its encoding. *)
Lemma EncodedLen_spec (src : list byte) :
  len src <= maxAlloc ->
  base64.EncodedLen (len src)
  = Z.of_nat (String.length (base64.EncodeToString src)).
Proof.
  intros Hn. rewrite EncodeToString_length.
  apply EncodedLen_no_wrap. unfold len in *. lia.
Qed.

(** The encoding is padded to full quanta, and written in the standard
    alphabet. *)
Lemma Encode_padded (src : list byte) :
  (length (base64.Encode src) mod 4 = 0)%nat.
Proof.
  induction src as [| a | a b | a b c rest IH] using list_ind3;
    try reflexivity.
  cbn [base64.Encode length].
  change (S (S (S (S (length (base64.Encode rest))))))
    with (4 + length (base64.Encode rest))%nat.
  rewrite <- Nat.Div0.add_mod_idemp_l. exact IH.
Qed.

Lemma Encode_alphabet (src : list byte) :
  Forall (fun c => In c (list_ascii_of_string base64.encodeStd)
                   \/ c = base64.StdPadding)
         (base64.Encode src).
Proof.
  induction src as [| a | a b | a b c rest IH] using list_ind3;
    cbn [base64.Encode]; unfold base64.sextet;
    repeat (apply List.Forall_cons;
            [first [ now right
                   | left; apply encode_in_alphabet, sextet_index; lia ] |]);
    first [exact IH | apply List.Forall_nil].
Qed.

(** ** encoding/json: the parser does not depend on its fuel *)

Lemma skipSpace_length (s : list ascii) :
  (length (json.skipSpace s) <= length s)%nat.
Proof.
  induction s as [| c s IH]; cbn [json.skipSpace length]; [lia |].
  destruct (json.isSpace c); cbn [length]; lia.
Qed.

Lemma stripPrefix_length (p s r : list ascii) :
  json.stripPrefix p s = Some r -> (length r <= length s)%nat.
Proof.
  revert s. induction p as [| a p IH]; intros s H; cbn [json.stripPrefix] in H.
  - injection H as <-. lia.
  - destruct s as [| b s]; [discriminate H |].
    destruct (Ascii.eqb a b); [| discriminate H].
    apply IH in H. cbn [length]. lia.
Qed.

Lemma prepend_Some (bytes out rest : list ascii)
  (r : option (list ascii * list ascii)) :
  json.prepend bytes r = Some (out, rest) ->
  exists out', r = Some (out', rest).
Proof.
  destruct r as [[out' rest'] |]; cbn [json.prepend]; intros H;
    [injection H as _ <-; eauto | discriminate H].
Qed.

Ltac no_match x :=
  lazymatch x with
  | context [match _ with _ => _ end] => fail
  | _ => idtac
  end.

(** Case analysis on every test and pattern match of the hypotheses,
    innermost first. *)
Ltac split_cases :=
  repeat match goal with
         | H : context [match ?x with _ => _ end] |- _ =>
             no_match x; destruct x eqn:?; try discriminate
         end.

Lemma scanString_shorter (s out rest : list ascii) :
  json.scanString s = Some (out, rest) -> (length rest < length s)%nat.
Proof.
  remember (length s) as n eqn:Hn. revert s out rest Hn.
  induction n as [n IH] using lt_wf_ind. intros s out rest Hn H.
  destruct s as [| c tl]; [discriminate H |].
  cbn [json.scanString] in H. cbn [length] in Hn.
  split_cases;
    try (injection H as <- <-; cbn [length]; lia);
    apply prepend_Some in H as [out' H];
    (eapply IH in H; [| | reflexivity]); subst; cbn [length] in *; lia.
Qed.

Lemma spanDigits_length (s d r : list ascii) :
  json.spanDigits s = (d, r) -> (length r <= length s)%nat.
Proof.
  revert d r. induction s as [| c s IH]; intros d r H; cbn [json.spanDigits] in H.
  - injection H as _ <-. lia.
  - destruct (json.isDigit c).
    + destruct (json.spanDigits s) as [d' r'] eqn:E. injection H as _ <-.
      specialize (IH _ _ eq_refl). cbn [length]. lia.
    + injection H as _ <-. lia.
Qed.

Lemma spanDigits_digit (c : ascii) (s d r : list ascii) :
  json.isDigit c = true ->
  json.spanDigits (c :: s) = (d, r) -> (length r <= length s)%nat.
Proof.
  intros Hc H. cbn [json.spanDigits] in H. rewrite Hc in H.
  destruct (json.spanDigits s) as [d' r'] eqn:E. injection H as _ <-.
  now apply spanDigits_length in E.
Qed.

Ltac span_bounds :=
  repeat match goal with
         | Hc : json.isDigit ?c = true,
           H : json.spanDigits (?c :: _) = (_, _) |- _ =>
             apply (spanDigits_digit _ _ _ _ Hc) in H
         | H : json.spanDigits _ = (_, _) |- _ =>
             apply spanDigits_length in H
         end.

Lemma scanNumber_shorter (s lit rest : list ascii) :
  json.scanNumber s = Some (lit, rest) -> (length rest < length s)%nat.
Proof.
  unfold json.scanNumber. intros H.
  split_cases.
  all: repeat match goal with
              | E : Some _ = Some _ |- _ => injection E as ? ?
              | E : (_, _) = (_, _) |- _ => injection E as ? ?
              end.
  all: span_bounds; subst; cbn [length] in *; try lia.
Qed.

Lemma valueStep_shrinks members elements :
  json.shrinks members -> json.shrinks elements ->
  json.shrinks (json.valueStep members elements).
Proof.
  intros Hm He s v rest H. unfold json.valueStep in H.
  pose proof (skipSpace_length s) as Hs.
  destruct (json.skipSpace s) as [| c tl] eqn:Es; [discriminate H |].
  pose proof (skipSpace_length tl) as Htl. cbn [length] in Hs.
  split_cases;
    repeat match goal with
           | E : option_map _ _ = Some _ |- _ =>
               unfold option_map in E; split_cases
           | E : Some _ = Some _ |- _ => injection E as ? ?
           | E : json.stripPrefix _ _ = Some _ |- _ =>
               apply stripPrefix_length in E
           | E : json.scanString _ = Some _ |- _ =>
               apply scanString_shorter in E
           | E : json.scanNumber _ = Some _ |- _ =>
               apply scanNumber_shorter in E
           | E : members _ = Some _ |- _ => apply Hm in E
           | E : elements _ = Some _ |- _ => apply He in E
           end;
    subst; cbn [length] in *; lia.
Qed.

Lemma membersStep_shrinks value members :
  json.shrinks value -> json.shrinks members ->
  json.shrinks (json.membersStep value members).
Proof.
  intros Hv Hm s ms rest H. unfold json.membersStep in H.
  split_cases;
    repeat match goal with
           | E : Some _ = Some _ |- _ => injection E as ? ?
           | E : json.scanString _ = Some _ |- _ =>
               apply scanString_shorter in E
           | E : json.skipSpace ?x = _ |- _ =>
               pose proof (skipSpace_length x); rewrite E in *; clear E
           | E : value _ = Some _ |- _ => apply Hv in E
           | E : members (json.skipSpace ?x) = Some _ |- _ =>
               apply Hm in E; pose proof (skipSpace_length x)
           end;
    subst; cbn [length] in *; lia.
Qed.

Lemma elementsStep_shrinks value elements :
  json.shrinks value -> json.shrinks elements ->
  json.shrinks (json.elementsStep value elements).
Proof.
  intros Hv He s vs rest H. unfold json.elementsStep in H.
  split_cases;
    repeat match goal with
           | E : Some _ = Some _ |- _ => injection E as ? ?
           | E : json.skipSpace ?x = _ |- _ =>
               pose proof (skipSpace_length x); rewrite E in *; clear E
           | E : value _ = Some _ |- _ => apply Hv in E
           | E : elements _ = Some _ |- _ => apply He in E
           end;
    subst; cbn [length] in *; lia.
Qed.

Lemma parse_shrinks (fuel : nat) :
  json.shrinks (json.parseValue fuel)
  /\ json.shrinks (json.parseMembers fuel)
  /\ json.shrinks (json.parseElements fuel).
Proof.
  induction fuel as [| fuel (IHv & IHm & IHe)].
  - repeat split; intros s a rest H; discriminate H.
  - repeat split; cbn [json.parseValue json.parseMembers json.parseElements].
    + now apply valueStep_shrinks.
    + now apply membersStep_shrinks.
    + now apply elementsStep_shrinks.
Qed.

(** A step only calls the parsers it is given on shorter input. *)
Lemma valueStep_ext m1 m2 e1 e2 (s : list ascii) :
  (forall x, (length x < length s)%nat -> m1 x = m2 x) ->
  (forall x, (length x < length s)%nat -> e1 x = e2 x) ->
  json.valueStep m1 e1 s = json.valueStep m2 e2 s.
Proof.
  intros Hm He. unfold json.valueStep.
  pose proof (skipSpace_length s) as Hs.
  destruct (json.skipSpace s) as [| c tl]; [reflexivity |].
  pose proof (skipSpace_length tl) as Htl. cbn [length] in Hs.
  destruct (json.skipSpace tl) as [| c' tl'];
    repeat match goal with
           | |- context [if ?b then _ else _] => destruct b
           end; try reflexivity.
  - rewrite Hm by lia. reflexivity.
  - rewrite He by lia. reflexivity.
Qed.

Lemma membersStep_ext v1 v2 m1 m2 (s : list ascii) :
  json.shrinks v1 ->
  (forall x, (length x + 2 <= length s)%nat -> v1 x = v2 x) ->
  (forall x, (length x + 2 <= length s)%nat -> m1 x = m2 x) ->
  json.membersStep v1 m1 s = json.membersStep v2 m2 s.
Proof.
  intros Hshr Hv Hm. unfold json.membersStep.
  destruct s as [| q tl]; [reflexivity |].
  destruct (Ascii.eqb q json.dquote); [| reflexivity].
  destruct (json.scanString tl) as [[key s1] |] eqn:Ek; [| reflexivity].
  apply scanString_shorter in Ek.
  pose proof (skipSpace_length s1) as Hs1.
  destruct (json.skipSpace s1) as [| colon s2]; [reflexivity |].
  destruct (json.isChar colon ":"); [| reflexivity].
  cbn [length] in *.
  rewrite <- Hv by lia.
  destruct (v1 s2) as [[v s3] |] eqn:Ev; [| reflexivity].
  apply Hshr in Ev.
  pose proof (skipSpace_length s3) as Hs3.
  destruct (json.skipSpace s3) as [| d s4]; [reflexivity |].
  destruct (json.isChar d "}"); [reflexivity |].
  destruct (json.isChar d ","); [| reflexivity].
  pose proof (skipSpace_length s4) as Hs4. cbn [length] in *.
  rewrite Hm by lia. reflexivity.
Qed.

Lemma elementsStep_ext v1 v2 e1 e2 (s : list ascii) :
  json.shrinks v1 ->
  v1 s = v2 s ->
  (forall x, (length x + 2 <= length s)%nat -> e1 x = e2 x) ->
  json.elementsStep v1 e1 s = json.elementsStep v2 e2 s.
Proof.
  intros Hshr Hv He. unfold json.elementsStep. rewrite <- Hv.
  destruct (v1 s) as [[v s1] |] eqn:Ev; [| reflexivity].
  apply Hshr in Ev.
  pose proof (skipSpace_length s1) as Hs1.
  destruct (json.skipSpace s1) as [| d s2]; [reflexivity |].
  destruct (json.isChar d "]"); [reflexivity |].
  destruct (json.isChar d ","); [| reflexivity].
  cbn [length] in *. rewrite He by lia. reflexivity.
Qed.

(** Beyond twice the length of the input one more unit of fuel changes
    nothing. *)
Lemma parse_fuel_step (fuel : nat) :
  (forall s, (2 * length s < fuel)%nat ->
             json.parseValue (S fuel) s = json.parseValue fuel s)
  /\ (forall s, (2 * length s < fuel)%nat ->
                json.parseMembers (S fuel) s = json.parseMembers fuel s)
  /\ (forall s, (2 * length s + 1 < fuel)%nat ->
                json.parseElements (S fuel) s = json.parseElements fuel s).
Proof.
  induction fuel as [| fuel (IHv & IHm & IHe)].
  - repeat split; intros s H; lia.
  - destruct (parse_shrinks (S fuel)) as (Hshr & _ & _).
    repeat split; intros s Hs.
    + change (json.valueStep (json.parseMembers (S fuel))
                (json.parseElements (S fuel)) s
              = json.valueStep (json.parseMembers fuel)
                  (json.parseElements fuel) s).
      apply valueStep_ext; intros x Hx; [apply IHm | apply IHe]; lia.
    + change (json.membersStep (json.parseValue (S fuel))
                (json.parseMembers (S fuel)) s
              = json.membersStep (json.parseValue fuel)
                  (json.parseMembers fuel) s).
      apply membersStep_ext; [exact Hshr | |];
        intros x Hx; [apply IHv | apply IHm]; lia.
    + change (json.elementsStep (json.parseValue (S fuel))
                (json.parseElements (S fuel)) s
              = json.elementsStep (json.parseValue fuel)
                  (json.parseElements fuel) s).
      apply elementsStep_ext; [exact Hshr | apply IHv; lia |].
      intros x Hx. apply IHe. lia.
Qed.

(** The fuel [readValue] gives the parser is enough: with any fuel above
    twice the length of the input the parser gives the same answer, so a
    [None] of [readValue] is a syntax error and never a lack of fuel. *)
Theorem parseValue_fuel (s : list ascii) (fuel : nat) :
  (2 * length s < fuel)%nat ->
  json.parseValue fuel s = json.parseValue (2 * length s + 1) s.
Proof.
  intros H.
  replace fuel with ((fuel - (2 * length s + 1)) + (2 * length s + 1))%nat by lia.
  induction (fuel - (2 * length s + 1))%nat as [| k IH]; [reflexivity |].
  rewrite <- IH. cbn [Nat.add].
  apply (proj1 (parse_fuel_step _)). lia.
Qed.

(** ** The handler, branch by branch *)

Lemma gtb_false (a b : Z) : a <= b -> (a >? b) = false.
Proof. intros H. rewrite Z.gtb_ltb. now apply Z.ltb_ge. Qed.

Lemma gtb_true (a b : Z) : a > b -> (a >? b) = true.
Proof. intros H. rewrite Z.gtb_ltb. apply Z.ltb_lt. lia. Qed.

Section Branches.

Context (pkg : string) {JSONError : Type}.
Context (jsonDecode : string -> result PushRequest JSONError).
Context (fcmSend : messaging.Message -> result string error).

Local Abbreviation trace := (serve pkg jsonDecode fcmSend).

Lemma serve_other_path (r : http.Request) :
  http.Path r <> "/_gomuks/push/fcm" ->
  trace r = [EvWriteHeader http.StatusNotFound].
Proof.
  intros Hp. apply String.eqb_neq in Hp.
  unfold trace, serve, run, handlePushProxy. now rewrite Hp.
Qed.

Lemma serve_content_too_long (r : http.Request) :
  http.Path r = "/_gomuks/push/fcm" ->
  http.ContentLength r > maxContentLength ->
  trace r = [EvWriteHeader http.StatusRequestEntityTooLarge].
Proof.
  intros Hp Hc. unfold trace, serve, run, handlePushProxy.
  rewrite Hp, String.eqb_refl, gtb_true by assumption. reflexivity.
Qed.

Lemma serve_decode_error (r : http.Request) (e : JSONError) :
  http.Path r = "/_gomuks/push/fcm" ->
  http.ContentLength r <= maxContentLength ->
  jsonDecode (http.Body r) = Err e ->
  trace r = [EvDecode (http.Body r); EvWriteHeader http.StatusBadRequest].
Proof.
  intros Hp Hc Hd. unfold trace, serve, run, handlePushProxy.
  rewrite Hp, String.eqb_refl, gtb_false by assumption.
  handler_steps. rewrite Hd. reflexivity.
Qed.

Lemma serve_payload_too_long (r : http.Request) (req : PushRequest) :
  http.Path r = "/_gomuks/push/fcm" ->
  http.ContentLength r <= maxContentLength ->
  jsonDecode (http.Body r) = Ok req ->
  base64.EncodedLen (len (Payload req)) > maxPayloadLength ->
  trace r = [EvDecode (http.Body r);
             EvWriteHeader http.StatusRequestEntityTooLarge].
Proof.
  intros Hp Hc Hd Hl. unfold trace, serve, run, handlePushProxy.
  rewrite Hp, String.eqb_refl, gtb_false by assumption.
  handler_steps. rewrite Hd. cbn [app snd fst].
  rewrite gtb_true by assumption. reflexivity.
Qed.

Lemma serve_sent (r : http.Request) (req : PushRequest) (id : string) :
  http.Path r = "/_gomuks/push/fcm" ->
  http.ContentLength r <= maxContentLength ->
  jsonDecode (http.Body r) = Ok req ->
  base64.EncodedLen (len (Payload req)) <= maxPayloadLength ->
  fcmSend (ToFCM pkg req) = Ok id ->
  trace r =
    [EvDecode (http.Body r);
     EvSend (ToFCM pkg req);
     EvLog (zerolog.mkLine zerolog.InfoLevel
              [("push_token", Token req); ("message_id", id);
               ("owner", Owner req)]
              "Sent FCM request");
     EvWriteHeader http.StatusOK].
Proof.
  intros Hp Hc Hd Hl Hs. unfold trace, serve, run, handlePushProxy.
  rewrite Hp, String.eqb_refl, gtb_false by assumption.
  handler_steps. rewrite Hd. cbn [app snd fst].
  rewrite gtb_false by assumption. rewrite Hs. reflexivity.
Qed.

Lemma serve_send_failed (r : http.Request) (req : PushRequest) (err : error) :
  http.Path r = "/_gomuks/push/fcm" ->
  http.ContentLength r <= maxContentLength ->
  jsonDecode (http.Body r) = Ok req ->
  base64.EncodedLen (len (Payload req)) <= maxPayloadLength ->
  fcmSend (ToFCM pkg req) = Err err ->
  trace r =
    [EvDecode (http.Body r);
     EvSend (ToFCM pkg req);
     EvLog (zerolog.mkLine zerolog.ErrorLevel
              [("error", Error err); ("push_token", Token req);
               ("owner", Owner req)]
              "Failed to send FCM request");
     EvWriteHeader
       (if String.eqb (Error err) "Requested entity was not found."
           || String.eqb (Error err) "SenderId mismatch"
        then http.StatusNotFound
        else http.StatusInternalServerError)].
Proof.
  intros Hp Hc Hd Hl Hs. unfold trace, serve, run, handlePushProxy.
  rewrite Hp, String.eqb_refl, gtb_false by assumption.
  handler_steps. rewrite Hd. cbn [app snd fst].
  rewrite gtb_false by assumption. rewrite Hs. cbn [app snd fst].
  destruct (_ || _); reflexivity.
Qed.

End Branches.

(** ** The claims about the pipeline *)

Section Pipeline.

Context (pkg : string) {JSONError : Type}.
Context (jsonDecode : string -> result PushRequest JSONError).
Context (fcmSend : messaging.Message -> result string error).

Local Abbreviation trace := (serve pkg jsonDecode fcmSend).

(** C1: a request that parses into a [PushRequest] whose payload has a
    standard-base64 encoding of more than 4000 bytes is answered 413, and
    [Send] is not called for it.  (The payload is a Go slice, so its
    length is within the address space.) *)
Theorem C1_encoded_payload_over_4000_is_413
  (r : http.Request) (req : PushRequest) :
  http.Path r = "/_gomuks/push/fcm" ->
  http.ContentLength r <= maxContentLength ->
  jsonDecode (http.Body r) = Ok req ->
  len (Payload req) <= maxAlloc ->
  Z.of_nat (String.length (base64.EncodeToString (Payload req))) > 4000 ->
  statuses (trace r) = [413] /\ sends (trace r) = [].
Proof.
  intros Hp Hc Hd Hfit Hlen.
  rewrite (serve_payload_too_long pkg jsonDecode fcmSend r req Hp Hc Hd).
  - split; reflexivity.
  - rewrite EncodedLen_spec by assumption. exact Hlen.
Qed.

(** C2: when the provider call fails, the answer is 404 exactly when the
    error message is one of the two known signatures (entity not found,
    sender id mismatch), and 500 for every other failure. *)
Theorem C2_provider_failure_is_404_or_500
  (r : http.Request) (req : PushRequest) (err : error) :
  http.Path r = "/_gomuks/push/fcm" ->
  http.ContentLength r <= maxContentLength ->
  jsonDecode (http.Body r) = Ok req ->
  base64.EncodedLen (len (Payload req)) <= maxPayloadLength ->
  fcmSend (ToFCM pkg req) = Err err ->
  (statuses (trace r) = [404] <->
     Error err = "Requested entity was not found."
     \/ Error err = "SenderId mismatch")
  /\ (statuses (trace r) = [500] <->
        ~ (Error err = "Requested entity was not found."
           \/ Error err = "SenderId mismatch")).
Proof.
  intros Hp Hc Hd Hl Hs.
  rewrite (serve_send_failed pkg jsonDecode fcmSend r req err Hp Hc Hd Hl Hs).
  cbn [statuses omap].
  destruct (String.eqb_spec (Error err) "Requested entity was not found.") as [E1 | N1];
    [| destruct (String.eqb_spec (Error err) "SenderId mismatch") as [E2 | N2]];
    cbn [orb].
  all: split; split; intros H;
    first [ discriminate H
          | reflexivity
          | now left
          | now right
          | exfalso; apply H; first [now left | now right]
          | destruct H; contradiction
          | intros [E | E]; contradiction ].
Qed.


(** C4: a request to the push path that declares a content length above
    4096 is answered 413 and nothing else happens: the body is not handed
    to the JSON decoder, no message is built for the provider, [Send] is
    not called. *)
Theorem C4_declared_length_over_4096_is_413 (r : http.Request) :
  http.Path r = "/_gomuks/push/fcm" ->
  http.ContentLength r > 4096 ->
  trace r = [EvWriteHeader 413]
  /\ statuses (trace r) = [413]
  /\ decodes (trace r) = []
  /\ sends (trace r) = [].
Proof.
  intros Hp Hc.
  rewrite (serve_content_too_long pkg jsonDecode fcmSend r Hp Hc).
  repeat split; reflexivity.
Qed.

(** C6: a valid request (right path, declared length within 4096, body
    parsed, encoded payload within 4000) causes exactly one [Send], of
    the translated request, and is answered 200 when that call succeeds. *)
Theorem C6_valid_request_sends_once (r : http.Request) (req : PushRequest) :
  http.Path r = "/_gomuks/push/fcm" ->
  http.ContentLength r <= maxContentLength ->
  jsonDecode (http.Body r) = Ok req ->
  base64.EncodedLen (len (Payload req)) <= maxPayloadLength ->
  sends (trace r) = [ToFCM pkg req]
  /\ (forall id, fcmSend (ToFCM pkg req) = Ok id -> statuses (trace r) = [200]).
Proof.
  intros Hp Hc Hd Hl.
  destruct (fcmSend (ToFCM pkg req)) as [id | err] eqn:Hs.
  - rewrite (serve_sent pkg jsonDecode fcmSend r req id Hp Hc Hd Hl Hs).
    split; [reflexivity | intros; reflexivity].
  - rewrite (serve_send_failed pkg jsonDecode fcmSend r req err Hp Hc Hd Hl Hs).
    split; [reflexivity | intros id' H; discriminate H].
Qed.

(** C10: on the push path, a request whose transport declares no positive
    content length (0, or -1 for an unknown length) is never stopped by
    the 4096-byte check: whatever its body, the first thing that happens
    is that the body is handed to the JSON decoder. *)
Theorem C10_undeclared_length_skips_size_check (r : http.Request) :
  http.Path r = "/_gomuks/push/fcm" ->
  http.ContentLength r <= 0 ->
  exists rest, trace r = EvDecode (http.Body r) :: rest.
Proof.
  intros Hp Hc.
  assert (Hc' : http.ContentLength r <= maxContentLength)
    by (unfold maxContentLength; lia).
  destruct (jsonDecode (http.Body r)) as [req | e] eqn:Hd.
  - destruct (Z_le_gt_dec (base64.EncodedLen (len (Payload req))) maxPayloadLength)
      as [Hl | Hl].
    + destruct (fcmSend (ToFCM pkg req)) as [id | err] eqn:Hs.
      * rewrite (serve_sent pkg jsonDecode fcmSend r req id Hp Hc' Hd Hl Hs).
        eauto.
      * rewrite (serve_send_failed pkg jsonDecode fcmSend r req err Hp Hc' Hd Hl Hs).
        eauto.
    + rewrite (serve_payload_too_long pkg jsonDecode fcmSend r req Hp Hc' Hd Hl).
      eauto.
  - rewrite (serve_decode_error pkg jsonDecode fcmSend r e Hp Hc' Hd). eauto.
Qed.

(** C8 (as the code has it): the handler writes a log line exactly for
    the requests it hands to the provider, one line per request, carrying
    the recipient token and the owner label; a request it rejects by
    itself (404, 413, 400) leaves no log line. *)
Theorem C8_log_line_only_for_provider_outcomes (r : http.Request) :
  match validated jsonDecode r with
  | Some req =>
      exists l, logs (trace r) = [l]
                /\ In ("push_token", Token req) (zerolog.fields l)
                /\ In ("owner", Owner req) (zerolog.fields l)
  | None => logs (trace r) = []
  end.
Proof.
  unfold validated.
  destruct (String.eqb_spec (http.Path r) "/_gomuks/push/fcm") as [Hp | Hp];
    cbn [andb].
  2: { now rewrite (serve_other_path pkg jsonDecode fcmSend r Hp). }
  destruct (Z.leb_spec (http.ContentLength r) maxContentLength) as [Hc | Hc].
  2: { rewrite (serve_content_too_long pkg jsonDecode fcmSend r Hp);
         [reflexivity | lia]. }
  destruct (jsonDecode (http.Body r)) as [req | e] eqn:Hd.
  2: { now rewrite (serve_decode_error pkg jsonDecode fcmSend r e Hp Hc Hd). }
  destruct (Z.leb_spec (base64.EncodedLen (len (Payload req))) maxPayloadLength)
    as [Hl | Hl].
  2: { rewrite (serve_payload_too_long pkg jsonDecode fcmSend r req Hp Hc Hd);
         [reflexivity | lia]. }
  destruct (fcmSend (ToFCM pkg req)) as [id | err] eqn:Hs.
  - rewrite (serve_sent pkg jsonDecode fcmSend r req id Hp Hc Hd Hl Hs).
    eexists. split; [reflexivity |]. cbn. auto.
  - rewrite (serve_send_failed pkg jsonDecode fcmSend r req err Hp Hc Hd Hl Hs).
    eexists. split; [reflexivity |]. cbn. auto.
Qed.

End Pipeline.

(** ** The translator *)

(** C5: the translator puts the standard, padded base64 encoding of the
    payload into the message's data under the key ["payload"] (the only
    key), decoding that entry gives the payload back, and the token is
    copied as it is.  The encoding is made of full four-character quanta
    over the standard alphabet and the padding character. *)
Theorem C5_payload_round_trip (pkg : string) (pr : PushRequest) :
  messaging.Data (ToFCM pkg pr) !! "payload"
    = Some (base64.EncodeToString (Payload pr))
  /\ dom (messaging.Data (ToFCM pkg pr)) = {[ "payload" ]}
  /\ messaging.Data (ToFCM pkg pr) !! "payload" ≫= base64.DecodeString
       = Some (Payload pr)
  /\ messaging.Token (ToFCM pkg pr) = Token pr
  /\ (String.length (base64.EncodeToString (Payload pr)) mod 4 = 0)%nat
  /\ Forall (fun c => In c (list_ascii_of_string base64.encodeStd)
                      \/ c = base64.StdPadding)
       (list_ascii_of_string (base64.EncodeToString (Payload pr))).
Proof.
  unfold ToFCM. cbn [messaging.Data messaging.Token].
  rewrite lookup_singleton_eq, dom_singleton_L.
  repeat split.
  - cbn. apply DecodeString_EncodeToString.
  - unfold base64.EncodeToString. rewrite string_of_list_ascii_length.
    apply Encode_padded.
  - unfold base64.EncodeToString. rewrite list_ascii_of_string_of_list_ascii.
    apply Encode_alphabet.
Qed.

(** C9: the priority is a function of [high_priority] alone, defined for
    every request: ["high"] for true, ["normal"] for false; the translator
    sends that string. *)
Theorem C9_priority_mapping
  (pkg token owner : string) (payload : list byte) :
  GetPriority (mkPushRequest token owner payload true) = "high"
  /\ GetPriority (mkPushRequest token owner payload false) = "normal"
  /\ messaging.Priority
       (messaging.Android (ToFCM pkg (mkPushRequest token owner payload true)))
     = "high"
  /\ messaging.Priority
       (messaging.Android (ToFCM pkg (mkPushRequest token owner payload false)))
     = "normal".
Proof. repeat split. Qed.

(** ** The scenarios of the specification, run on the model

    The body is decoded as [encoding/json] decodes it, the provider is a
    stub. *)

Ltac run_model := vm_compute; first [reflexivity | discriminate].

Example scenario_sent :
  statuses (serve "pkg" decodePushRequest (providerAccepts "msg-1")
              (pushRequestOf scenarioBody)) = [200].
Proof. run_model. Qed.

Example scenario_payload_too_large :
  let tr := serve "pkg" decodePushRequest (providerAccepts "msg-1")
              (pushRequestOf largePayloadBody) in
  statuses tr = [413] /\ sends tr = [].
Proof. split; run_model. Qed.

Example scenario_malformed_json :
  statuses (serve "pkg" decodePushRequest (providerAccepts "msg-1")
              (pushRequestOf "{")) = [400].
Proof. run_model. Qed.

Example scenario_wrong_type :
  statuses (serve "pkg" decodePushRequest (providerAccepts "msg-1")
              (pushRequestOf ("{" ++ member "token" "12" ++ "}")%string))
  = [400].
Proof. run_model. Qed.

Example scenario_entity_not_found :
  statuses (serve "pkg" decodePushRequest
              (providerFails "Requested entity was not found.")
              (pushRequestOf scenarioBody)) = [404].
Proof. run_model. Qed.

Example scenario_unrelated_error :
  statuses (serve "pkg" decodePushRequest
              (providerFails "context deadline exceeded")
              (pushRequestOf scenarioBody)) = [500].
Proof. run_model. Qed.

Example scenario_other_path :
  serve "pkg" decodePushRequest (providerAccepts "msg-1")
    (http.mkRequest "/unknown" 0 EmptyString)
  = [EvWriteHeader 404].
Proof. run_model. Qed.

(** The standard alphabet, not the URL-safe one, and padded. *)
Example encode_std_alphabet :
  base64.EncodeToString [xfb; xff] = "+/8=".
Proof. reflexivity. Qed.

(** A body of more than 4096 bytes sent without a declared length is
    decoded and dispatched. *)
Example chunked_oversize_body_is_served :
  Z.of_nat (String.length paddedBody) > 4096
  /\ statuses (serve "pkg" decodePushRequest (providerAccepts "msg-1")
                 (chunkedRequestOf paddedBody)) = [200].
Proof. split; run_model. Qed.

(** ** The claims at concrete requests *)

Lemma C1_witness :
  statuses (serve "pkg" decodePushRequest (providerAccepts "msg-1")
              (pushRequestOf largePayloadBody)) = [413]
  /\ sends (serve "pkg" decodePushRequest (providerAccepts "msg-1")
              (pushRequestOf largePayloadBody)) = [].
Proof.
  apply (C1_encoded_payload_over_4000_is_413 "pkg" decodePushRequest
           (providerAccepts "msg-1") (pushRequestOf largePayloadBody)
           (mkPushRequest EmptyString EmptyString (repeat x00 3003) false));
    run_model.
Defined.

Lemma C2_witness :
  (statuses (serve "pkg" decodePushRequest (providerFails "SenderId mismatch")
               (pushRequestOf scenarioBody)) = [404] <->
     "SenderId mismatch" = "Requested entity was not found."
     \/ "SenderId mismatch" = "SenderId mismatch")
  /\ (statuses (serve "pkg" decodePushRequest (providerFails "SenderId mismatch")
                  (pushRequestOf scenarioBody)) = [500] <->
        ~ ("SenderId mismatch" = "Requested entity was not found."
           \/ "SenderId mismatch" = "SenderId mismatch")).
Proof.
  apply (C2_provider_failure_is_404_or_500 "pkg" decodePushRequest
           (providerFails "SenderId mismatch") (pushRequestOf scenarioBody)
           (mkPushRequest "abc" "u1" [x68; x69] false)
           (mkError "SenderId mismatch"));
    run_model.
Defined.


Lemma C4_witness :
  serve "pkg" decodePushRequest (providerAccepts "msg-1")
    (pushRequestOf paddedBody) = [EvWriteHeader 413]
  /\ statuses (serve "pkg" decodePushRequest (providerAccepts "msg-1")
                 (pushRequestOf paddedBody)) = [413]
  /\ decodes (serve "pkg" decodePushRequest (providerAccepts "msg-1")
                (pushRequestOf paddedBody)) = []
  /\ sends (serve "pkg" decodePushRequest (providerAccepts "msg-1")
              (pushRequestOf paddedBody)) = [].
Proof.
  apply (C4_declared_length_over_4096_is_413 "pkg" decodePushRequest
           (providerAccepts "msg-1") (pushRequestOf paddedBody));
    run_model.
Defined.

Lemma C6_witness :
  sends (serve "pkg" decodePushRequest (providerAccepts "msg-1")
           (pushRequestOf scenarioBody))
    = [ToFCM "pkg" (mkPushRequest "abc" "u1" [x68; x69] false)]
  /\ statuses (serve "pkg" decodePushRequest (providerAccepts "msg-1")
                 (pushRequestOf scenarioBody)) = [200].
Proof.
  destruct (C6_valid_request_sends_once "pkg" decodePushRequest
              (providerAccepts "msg-1") (pushRequestOf scenarioBody)
              (mkPushRequest "abc" "u1" [x68; x69] false))
    as [Hsent Hok]; try run_model.
  split; [exact Hsent | apply (Hok "msg-1"); reflexivity].
Defined.

Lemma C10_witness :
  exists rest,
    serve "pkg" decodePushRequest (providerAccepts "msg-1")
      (chunkedRequestOf paddedBody)
    = EvDecode paddedBody :: rest.
Proof.
  apply (C10_undeclared_length_skips_size_check "pkg" decodePushRequest
           (providerAccepts "msg-1") (chunkedRequestOf paddedBody));
    run_model.
Defined.

(** ** Where the code departs from the claims *)


(** C8, as stated, has a log line with token and owner for every
    validation rejection.  The handler writes none: a malformed body is
    answered 400 and the trace has no log line at all. *)
Lemma C8_rejection_is_not_logged :
  ~ (forall r : http.Request,
       let tr := serve "pkg" decodePushRequest (providerAccepts "msg-1") r in
       statuses tr = [400] \/ statuses tr = [413] ->
       exists l token owner,
         In l (logs tr)
         /\ In ("push_token", token) (zerolog.fields l)
         /\ In ("owner", owner) (zerolog.fields l)).
Proof.
  intros Hclaim.
  destruct (Hclaim (pushRequestOf "{")) as (l & token & owner & Hl & _).
  - left. reflexivity.
  - vm_compute in Hl. exact Hl.
Qed.

(** * Further properties of the gateway *)

(** The size check in raw bytes: within the address space the encoding
    fits 4000 characters exactly when the payload has at most 3000 bytes. *)
Lemma EncodedLen_threshold (n : Z) :
  0 <= n <= maxAlloc ->
  base64.EncodedLen n <= maxPayloadLength <-> n <= 3000.
Proof.
  intros Hn. rewrite EncodedLen_no_wrap by assumption.
  unfold maxPayloadLength. Z.to_euclidean_division_equations; lia.
Qed.

(** ** The handler as a whole *)

Section Dispatch.

Context (pkg : string) {JSONError : Type}.
Context (jsonDecode : string -> result PushRequest JSONError).
Context (fcmSend : messaging.Message -> result string error).

Local Abbreviation trace := (serve pkg jsonDecode fcmSend).

(** The trace of a request, written out. *)
Lemma serve_unfold (r : http.Request) :
  trace r =
    if negb (String.eqb (http.Path r) "/_gomuks/push/fcm") then
      [EvWriteHeader http.StatusNotFound]
    else if http.ContentLength r >? maxContentLength then
      [EvWriteHeader http.StatusRequestEntityTooLarge]
    else
      EvDecode (http.Body r) ::
      match jsonDecode (http.Body r) with
      | Err _ => [EvWriteHeader http.StatusBadRequest]
      | Ok req =>
          if base64.EncodedLen (len (Payload req)) >? maxPayloadLength then
            [EvWriteHeader http.StatusRequestEntityTooLarge]
          else
            EvSend (ToFCM pkg req) ::
            match fcmSend (ToFCM pkg req) with
            | Ok id =>
                [EvLog (zerolog.mkLine zerolog.InfoLevel
                          [("push_token", Token req); ("message_id", id);
                           ("owner", Owner req)]
                          "Sent FCM request");
                 EvWriteHeader http.StatusOK]
            | Err err =>
                [EvLog (zerolog.mkLine zerolog.ErrorLevel
                          [("error", Error err); ("push_token", Token req);
                           ("owner", Owner req)]
                          "Failed to send FCM request");
                 EvWriteHeader
                   (if String.eqb (Error err) "Requested entity was not found."
                       || String.eqb (Error err) "SenderId mismatch"
                    then http.StatusNotFound
                    else http.StatusInternalServerError)]
            end
      end.
Proof.
  unfold serve, run, handlePushProxy.
  destruct (negb _); [reflexivity |].
  destruct (_ >? _); [reflexivity |].
  handler_steps.
  destruct (jsonDecode (http.Body r)) as [req | e]; [| reflexivity].
  destruct (_ >? _); [reflexivity |].
  destruct (fcmSend (ToFCM pkg req)) as [id | err]; [reflexivity |].
  destruct (_ || _); reflexivity.
Qed.

(** Case analysis along the guards of the handler. *)
Ltac guards r :=
  rewrite ?(serve_unfold r); unfold validated;
  destruct (String.eqb (http.Path r) "/_gomuks/push/fcm") eqn:Hpath;
    cbn [negb andb];
    [ destruct (Z.leb_spec (http.ContentLength r) maxContentLength) as [Hcl | Hcl];
      [ rewrite (gtb_false _ _ Hcl);
        destruct (jsonDecode (http.Body r)) as [req | e] eqn:Hdec;
        [ destruct (Z.leb_spec (base64.EncodedLen (len (Payload req)))
                      maxPayloadLength) as [Hlen | Hlen];
          [ rewrite (gtb_false _ _ Hlen);
            destruct (fcmSend (ToFCM pkg req)) as [id | err] eqn:Hsend
          | rewrite (gtb_true _ _ (Z.lt_gt _ _ Hlen)) ]
        | ]
      | rewrite (gtb_true _ _ (Z.lt_gt _ _ Hcl)) ]
    | ].

(** X1: every request is answered with exactly one [WriteHeader]; it is
    the last thing the handler does, and the status is one of 200, 400,
    404, 413 and 500. *)
Theorem handler_writes_one_status (r : http.Request) :
  exists before status,
    trace r = before ++ [EvWriteHeader status]
    /\ statuses before = []
    /\ In status [200; 400; 404; 413; 500].
Proof.
  guards r.
  all: try match goal with
           | |- context [if ?b then http.StatusNotFound else _] => destruct b
           end.
  all: match goal with
       | |- exists b s, ?l = _ /\ _ =>
           exists (List.removelast l), (match List.last l (EvWriteHeader 0) with
                                   | EvWriteHeader s => s
                                   | _ => 0
                                   end)
       end; cbn; intuition.
Qed.

(** X2: the answer is 200 only when the request passed every guard and
    the provider returned a message id for it, and always then. *)
Theorem ok_iff_provider_accepted (r : http.Request) :
  statuses (trace r) = [200] <->
  exists req id,
    validated jsonDecode r = Some req /\ fcmSend (ToFCM pkg req) = Ok id.
Proof.
  guards r.
  all: try match goal with
           | |- context [if ?b then http.StatusNotFound else _] => destruct b
           end.
  all: cbn [statuses omap]; split;
    [ intros H; try discriminate H; eauto
    | intros (req' & id' & Hv & Hs); try discriminate Hv;
      try (injection Hv as <-; rewrite Hsend in Hs; discriminate Hs);
      reflexivity ].
Qed.

(** X3: [Send] is called exactly for the requests that pass the four
    guards, once, with the translation of the decoded request; a request
    the handler rejects never reaches the provider. *)
Theorem provider_called_iff_valid (r : http.Request) :
  sends (trace r) =
    match validated jsonDecode r with
    | Some req => [ToFCM pkg req]
    | None => []
    end.
Proof. guards r; reflexivity. Qed.

(** X4: the body is handed to the JSON decoder exactly when the path is
    the push path and the declared length is at most 4096 (the bound is
    inclusive), and then once. *)
Theorem body_decoded_iff_within_limit (r : http.Request) :
  decodes (trace r) =
    if String.eqb (http.Path r) "/_gomuks/push/fcm"
       && (http.ContentLength r <=? 4096)
    then [http.Body r] else [].
Proof.
  guards r; cbn [andb];
    change 4096 with maxContentLength;
    first [ rewrite (proj2 (Z.leb_le _ _) Hcl)
          | rewrite (proj2 (Z.leb_gt _ _) Hcl)
          | idtac ];
    reflexivity.
Qed.

(** X5: a request that reaches the provider leaves one log line.  After a
    successful send it is at info level, with the token, the provider's
    message id and the owner, and without an error field; after a failed
    send it is at error level and starts with the provider's error
    message. *)
Theorem log_line_of_outcome (r : http.Request) (pr : PushRequest) :
  validated jsonDecode r = Some pr ->
  logs (trace r) =
    [match fcmSend (ToFCM pkg pr) with
     | Ok id =>
         zerolog.mkLine zerolog.InfoLevel
           [("push_token", Token pr); ("message_id", id);
            ("owner", Owner pr)]
           "Sent FCM request"
     | Err err =>
         zerolog.mkLine zerolog.ErrorLevel
           [("error", Error err); ("push_token", Token pr);
            ("owner", Owner pr)]
           "Failed to send FCM request"
     end].
Proof.
  guards r; intros Hv; try discriminate Hv;
    injection Hv as <-; rewrite Hsend; reflexivity.
Qed.

(** X6: the payload limit in raw bytes.  A request that parses is handed
    to the provider exactly when its payload has at most 3000 bytes, and
    answered 413 exactly when it has more. *)
Theorem raw_payload_limit_is_3000 (r : http.Request) (pr : PushRequest) :
  http.Path r = "/_gomuks/push/fcm" ->
  http.ContentLength r <= maxContentLength ->
  jsonDecode (http.Body r) = Ok pr ->
  len (Payload pr) <= maxAlloc ->
  (sends (trace r) = [ToFCM pkg pr] <-> len (Payload pr) <= 3000)
  /\ (statuses (trace r) = [413] <-> 3000 < len (Payload pr)).
Proof.
  intros Hp Hc Hd Hfit.
  assert (Hthr := EncodedLen_threshold (len (Payload pr))
                    (conj (Nat2Z.is_nonneg _) Hfit)).
  rewrite serve_unfold, Hp, String.eqb_refl, (gtb_false _ _ Hc), Hd.
  cbn [negb].
  destruct (Z.leb_spec (base64.EncodedLen (len (Payload pr))) maxPayloadLength)
    as [Hl | Hl].
  - rewrite (gtb_false _ _ Hl).
    destruct (fcmSend (ToFCM pkg pr)) as [id | err].
    2: destruct (_ || _).
    all: cbn [sends statuses omap]; split; split; intros H;
      try discriminate H; try reflexivity; lia.
  - rewrite (gtb_true _ _ (Z.lt_gt _ _ Hl)).
    cbn [sends statuses omap]; split; split; intros H;
      try discriminate H; try reflexivity; lia.
Qed.

(** X7: whatever is handed to the provider carries, under ["payload"], at
    most 4000 characters of data, and is restricted to the configured
    package.  (Payloads are Go slices, within the address space.) *)
Theorem sent_payload_within_limit (r : http.Request) :
  (forall pr, jsonDecode (http.Body r) = Ok pr -> len (Payload pr) <= maxAlloc) ->
  List.Forall
    (fun m =>
       exists data,
         messaging.Data m !! "payload" = Some data
         /\ Z.of_nat (String.length data) <= 4000
         /\ messaging.RestrictedPackageName (messaging.Android m) = pkg)
    (sends (trace r)).
Proof.
  intros Hfit.
  guards r; unfold sends; cbn [omap list_omap];
    repeat apply List.Forall_cons; try apply List.Forall_nil.
  all: exists (base64.EncodeToString (Payload req));
    unfold ToFCM;
    cbn [messaging.Data messaging.Android messaging.RestrictedPackageName];
    rewrite lookup_singleton_eq; repeat split;
    rewrite <- EncodedLen_spec by (now apply Hfit); exact Hlen.
Qed.

Lemma known_signature_spec (err : error) :
  String.eqb (Error err) "Requested entity was not found."
  || String.eqb (Error err) "SenderId mismatch" = true
  <-> Error err = "Requested entity was not found."
      \/ Error err = "SenderId mismatch".
Proof.
  rewrite orb_true_iff, !String.eqb_eq. reflexivity.
Qed.

Ltac causes :=
  repeat match goal with
         | H : _ /\ _ |- _ => destruct H
         | H : exists _, _ |- _ => destruct H
         | H : Some _ = Some _ |- _ => injection H as <-
         | H : Ok _ = Ok _ |- _ => injection H as <-
         | H : Err _ = Err _ |- _ => injection H as <-
         | H : ?x = _, H' : ?x = _ |- _ => rewrite H in H'
         end;
  first [ discriminate | lia | tauto
        | match goal with
          | H : _ \/ _ |- _ => destruct H; causes
          end
        | solve [eauto 10]
        | solve [split; [assumption | left; lia]]
        | solve [split; [assumption
                        | right; eexists; split; [reflexivity | lia]]] ].

(** X8: what each error status tells the client.  400: the body was
    read and the decoder returned an error.  413: the declared length is
    above 4096, or the body parsed and its encoded payload is above 4000.
    404: the path is not the push path, or the provider failed with one
    of the two known messages.  500: the provider failed with any other
    message. *)
Theorem error_status_causes (r : http.Request) :
  (statuses (trace r) = [400] <->
     http.Path r = "/_gomuks/push/fcm"
     /\ http.ContentLength r <= maxContentLength
     /\ exists e, jsonDecode (http.Body r) = Err e)
  /\ (statuses (trace r) = [413] <->
        http.Path r = "/_gomuks/push/fcm"
        /\ (http.ContentLength r > maxContentLength
            \/ exists pr, jsonDecode (http.Body r) = Ok pr
                          /\ base64.EncodedLen (len (Payload pr))
                             > maxPayloadLength))
  /\ (statuses (trace r) = [404] <->
        http.Path r <> "/_gomuks/push/fcm"
        \/ exists pr err,
             validated jsonDecode r = Some pr
             /\ fcmSend (ToFCM pkg pr) = Err err
             /\ (Error err = "Requested entity was not found."
                 \/ Error err = "SenderId mismatch"))
  /\ (statuses (trace r) = [500] <->
        exists pr err,
          validated jsonDecode r = Some pr
          /\ fcmSend (ToFCM pkg pr) = Err err
          /\ ~ (Error err = "Requested entity was not found."
                \/ Error err = "SenderId mismatch")).
Proof.
  guards r;
    first [apply String.eqb_eq in Hpath | apply String.eqb_neq in Hpath].
  all: try match goal with
           | |- context [if ?b then http.StatusNotFound else _] =>
               destruct b eqn:Hsig;
               [ apply known_signature_spec in Hsig
               | assert (Hno : ~ (Error err = "Requested entity was not found."
                                  \/ Error err = "SenderId mismatch"))
                   by (rewrite <- known_signature_spec, Hsig; discriminate) ]
           end.
  all: cbn [statuses omap];
    repeat match goal with
           | |- _ /\ _ => split
           | |- _ <-> _ => split
           end;
    intros Hx; try discriminate Hx; try reflexivity.
  all: causes.
Qed.

End Dispatch.


(** ** Start-up *)

(** X10: [init] never panics, and the server listens on the configured
    host and on the configured port, on port 8080 when the environment
    has no [PORT].  A [PORT] that is set is kept, also when it is empty. *)
Theorem listen_address_after_init (env : gmap string string) :
  exists env',
    init env = Ok env'
    /\ serverAddr env'
       = (os.Getenv "HOST" env ++ ":" ++ default "8080" (env !! "PORT"))%string.
Proof.
  unfold init, os.LookupEnv, serverAddr, os.Getenv.
  destruct (env !! "PORT") as [p |] eqn:Hport.
  - exists env. split; [reflexivity |]. now rewrite Hport.
  - exists (<["PORT" := "8080"]> env). split; [reflexivity |].
    rewrite lookup_insert_eq, lookup_insert_ne by discriminate. reflexivity.
Qed.

(** X11: [init] touches nothing but a missing [PORT]: every other
    variable keeps its value (so the package name read before [init] is
    the one in force after it), an environment that has a [PORT] is left
    as it is, and running [init] on its own result changes nothing. *)
Theorem init_keeps_environment (env : gmap string string) :
  exists env',
    init env = Ok env'
    /\ is_Some (env' !! "PORT")
    /\ (forall key, key <> "PORT" -> env' !! key = env !! key)
    /\ (is_Some (env !! "PORT") -> env' = env)
    /\ readPackageName env' = readPackageName env
    /\ init env' = Ok env'.
Proof.
  unfold init, os.LookupEnv, readPackageName, os.Getenv.
  destruct (env !! "PORT") as [p |] eqn:Hport.
  - exists env. rewrite Hport. repeat split; eauto.
  - exists (<["PORT" := "8080"]> env).
    change (os.Setenv "PORT" "8080" env) with (Ok (E := error) (<["PORT" := "8080"]> env)).
    rewrite lookup_insert_eq. repeat split.
    + eauto.
    + intros key Hk. now rewrite lookup_insert_ne.
    + intros [x Hx]. discriminate Hx.
    + now rewrite lookup_insert_ne.
Qed.

(** ** A push in its wire format, through decoder and handler *)

Lemma list_ascii_of_string_app (a b : string) :
  list_ascii_of_string (a ++ b)%string
  = list_ascii_of_string a ++ list_ascii_of_string b.
Proof.
  induction a as [| c a IH]; [reflexivity |].
  change (list_ascii_of_string (String.String c a ++ b)%string)
    with (c :: list_ascii_of_string (a ++ b)%string).
  now rewrite IH.
Qed.

(** Plain characters are copied up to the closing quote. *)
Lemma scanString_plain (l rest : list ascii) :
  forallb plainChar l = true ->
  json.scanString (l ++ json.dquote :: rest) = Some (l, rest).
Proof.
  induction l as [| c l IH]; intros Hl.
  - reflexivity.
  - cbn [forallb] in Hl. apply andb_prop in Hl as [Hc Hl].
    unfold plainChar in Hc.
    apply andb_prop in Hc as [Hc Hbs]. apply andb_prop in Hc as [Hc Hq].
    apply andb_prop in Hc as [Hlo Hhi].
    apply negb_true_iff in Hq, Hbs. apply Z.leb_le in Hlo.
    cbn [app json.scanString]. rewrite Hq, Hbs, Hhi.
    rewrite (proj2 (Z.ltb_ge _ _) Hlo).
    rewrite IH by assumption. reflexivity.
Qed.

Lemma alphabet_plain (c : ascii) :
  In c (list_ascii_of_string base64.encodeStd) \/ c = base64.StdPadding ->
  plainChar c = true.
Proof.
  assert (Hall : forallb plainChar
                   (base64.StdPadding :: list_ascii_of_string base64.encodeStd)
                 = true) by reflexivity.
  rewrite forallb_forall in Hall. intros [H | ->]; apply Hall.
  - now right.
  - now left.
Qed.

Lemma Encode_plain (src : list byte) :
  forallb plainChar (base64.Encode src) = true.
Proof.
  apply forallb_forall. intros c Hc.
  apply alphabet_plain.
  exact (proj1 (List.Forall_forall _ _) (Encode_alphabet src) c Hc).
Qed.

(** A string value made of plain characters, at any fuel. *)
Lemma parseValue_plain_string (fuel : nat) (l rest : list ascii) :
  forallb plainChar l = true ->
  json.parseValue (S fuel) (json.dquote :: l ++ json.dquote :: rest)
  = Some (json.String (string_of_list_ascii l), rest).
Proof.
  intros Hl. cbn [json.parseValue]. unfold json.valueStep.
  change (json.skipSpace (json.dquote :: l ++ json.dquote :: rest))
    with (json.dquote :: l ++ json.dquote :: rest).
  cbv iota beta.
  change (json.isChar json.dquote "{") with false.
  change (json.isChar json.dquote "[") with false.
  change (Ascii.eqb json.dquote json.dquote) with true.
  cbv iota. now rewrite scanString_plain.
Qed.

(** A member with a plain key, a plain string value and a comma behind. *)
Lemma parseMembers_string_member
  (fuel : nat) (key val tl : list ascii) :
  forallb plainChar key = true ->
  forallb plainChar val = true ->
  json.parseMembers (S (S fuel))
    (json.dquote :: key ++ json.dquote :: ":"%char :: json.dquote
       :: val ++ json.dquote :: ","%char :: json.dquote :: tl)
  = match json.parseMembers (S fuel) (json.dquote :: tl) with
    | Some (ms, rest) =>
        Some ((string_of_list_ascii key,
               json.String (string_of_list_ascii val)) :: ms, rest)
    | None => None
    end.
Proof.
  intros Hk Hv.
  change (json.parseMembers (S (S fuel))) with
    (json.membersStep (json.parseValue (S fuel)) (json.parseMembers (S fuel))).
  unfold json.membersStep.
  change (Ascii.eqb json.dquote json.dquote) with true. cbv iota.
  rewrite scanString_plain by assumption.
  change (json.skipSpace (":"%char :: ?x)) with (":"%char :: x).
  cbv iota beta.
  rewrite parseValue_plain_string by assumption.
  reflexivity.
Qed.

Lemma bodyOf_chars (token owner : string) (payload : list byte) (high : bool) :
  list_ascii_of_string (bodyOf token owner payload high)
  = "{"%char :: json.dquote :: list_ascii_of_string "token" ++ json.dquote
      :: ":"%char :: json.dquote :: list_ascii_of_string token ++ json.dquote
      :: ","%char :: json.dquote :: list_ascii_of_string "owner" ++ json.dquote
      :: ":"%char :: json.dquote :: list_ascii_of_string owner ++ json.dquote
      :: ","%char :: json.dquote :: list_ascii_of_string "payload" ++ json.dquote
      :: ":"%char :: json.dquote :: base64.Encode payload ++ json.dquote
      :: ","%char :: json.dquote :: list_ascii_of_string "high_priority"
      ++ json.dquote :: ":"%char
      :: list_ascii_of_string (if high then "true" else "false") ++ ["}"%char].
Proof.
  unfold bodyOf, member, quoted, base64.EncodeToString.
  repeat first [ rewrite list_ascii_of_string_app
               | rewrite list_ascii_of_string_of_list_ascii
               | progress cbn [list_ascii_of_string]
               | rewrite <- app_assoc
               | progress cbn [app] ].
  reflexivity.
Qed.

Lemma parseValue_object (fuel : nat) (tl : list ascii) :
  json.parseValue (S fuel) ("{"%char :: json.dquote :: tl)
  = match json.parseMembers fuel (json.dquote :: tl) with
    | Some (ms, rest) => Some (json.Object ms, rest)
    | None => None
    end.
Proof. reflexivity. Qed.

Lemma parseMembers_last_bool (fuel : nat) (high : bool) :
  json.parseMembers (S (S fuel))
    (json.dquote :: list_ascii_of_string "high_priority" ++ json.dquote
       :: ":"%char
       :: list_ascii_of_string (if high then "true" else "false") ++ ["}"%char])
  = Some ([("high_priority", json.Bool high)], []).
Proof. destruct high; reflexivity. Qed.

Lemma fieldByName_tags :
  fieldByName "token" = Some FToken
  /\ fieldByName "owner" = Some FOwner
  /\ fieldByName "payload" = Some FPayload
  /\ fieldByName "high_priority" = Some FHighPriority.
Proof. repeat split. Qed.

(** The body a client builds from a request decodes into that request. *)
Lemma decodePushRequest_wire_format
  (token owner : string) (payload : list byte) (high : bool) :
  plain token = true ->
  plain owner = true ->
  decodePushRequest (bodyOf token owner payload high)
  = Ok (mkPushRequest token owner payload high).
Proof.
  intros Ht Ho. unfold decodePushRequest, json.readValue.
  rewrite bodyOf_chars.
  set (chars := "{"%char :: _).
  change (json.skipSpace chars) with chars.
  assert (Hfuel : exists k, (2 * length chars + 2 = 6 + k)%nat)
    by (exists (2 * length chars - 4)%nat; subst chars; cbn [length]; lia).
  destruct Hfuel as [k ->]. subst chars. cbv iota beta.
  cbn [Nat.add].
  rewrite parseValue_object.
  rewrite parseMembers_string_member by (assumption || reflexivity).
  rewrite parseMembers_string_member by (assumption || reflexivity).
  rewrite parseMembers_string_member by (apply Encode_plain || reflexivity).
  rewrite parseMembers_last_bool.
  cbv iota beta.
  rewrite !string_of_list_ascii_of_string.
  destruct fieldByName_tags as (Ft & Fo & Fp & Fh).
  unfold unmarshal. cbn [storeMembers].
  rewrite Ft, Fo, Fp, Fh.
  cbn [storeField zeroPushRequest Token Owner Payload HighPriority].
  change (string_of_list_ascii (base64.Encode payload))
    with (base64.EncodeToString payload).
  rewrite DecodeString_EncodeToString.
  reflexivity.
Qed.

(** X12: decoding undoes the wire format.  The body a client builds from
    a token and an owner of plain characters, any payload and either
    priority is decoded without error into exactly that request; so no
    two such requests share a body. *)
Theorem decode_bodyOf (token owner : string) (payload : list byte) (high : bool) :
  plain token = true ->
  plain owner = true ->
  decodePushRequest (bodyOf token owner payload high)
    = Ok (mkPushRequest token owner payload high)
  /\ (forall token' owner' payload' high',
        plain token' = true -> plain owner' = true ->
        bodyOf token' owner' payload' high' = bodyOf token owner payload high ->
        mkPushRequest token' owner' payload' high'
        = mkPushRequest token owner payload high).
Proof.
  intros Ht Ho. split; [now apply decodePushRequest_wire_format |].
  intros token' owner' payload' high' Ht' Ho' Hbody.
  pose proof (decodePushRequest_wire_format token' owner' payload' high' Ht' Ho')
    as Hd'.
  rewrite Hbody, decodePushRequest_wire_format in Hd' by assumption.
  congruence.
Qed.

(** X13: a push in its wire format is relayed.  With a token and an owner
    of plain characters, a payload of at most 3000 bytes and a body
    within the declared-length limit, the provider is called once, with
    the token, the priority and the payload in the base64 text the body
    carried, and a provider that accepts is answered with 200. *)
Theorem push_is_relayed
  (pkg : string) (fcmSend : messaging.Message -> result string error)
  (token owner : string) (payload : list byte) (high : bool) (id : string) :
  plain token = true ->
  plain owner = true ->
  len payload <= 3000 ->
  Z.of_nat (String.length (bodyOf token owner payload high)) <= 4096 ->
  fcmSend (ToFCM pkg (mkPushRequest token owner payload high)) = Ok id ->
  sends (serve pkg decodePushRequest fcmSend
           (pushRequestOf (bodyOf token owner payload high)))
    = [messaging.mkMessage
         {[ "payload" := base64.EncodeToString payload ]}
         (messaging.mkAndroidConfig pkg (if high then "high" else "normal"))
         token]
  /\ statuses (serve pkg decodePushRequest fcmSend
                 (pushRequestOf (bodyOf token owner payload high)))
     = [200].
Proof.
  intros Ht Ho Hlen Hbody Hsend.
  rewrite (serve_sent pkg decodePushRequest fcmSend
             (pushRequestOf (bodyOf token owner payload high))
             (mkPushRequest token owner payload high) id).
  - split; reflexivity.
  - reflexivity.
  - exact Hbody.
  - cbn [pushRequestOf http.Body]. now apply decodePushRequest_wire_format.
  - cbn [Payload]. apply EncodedLen_threshold; [| exact Hlen].
    unfold maxAlloc, len in *. change (2 ^ 48) with 281474976710656. lia.
  - exact Hsend.
Qed.

(** ** The further properties at concrete requests *)

Lemma raw_payload_limit_witness :
  (sends (serve "pkg" decodePushRequest (providerAccepts "msg-1")
            (pushRequestOf scenarioBody))
     = [ToFCM "pkg" (mkPushRequest "abc" "u1" [x68; x69] false)]
   <-> len [x68; x69] <= 3000)
  /\ (statuses (serve "pkg" decodePushRequest (providerAccepts "msg-1")
                  (pushRequestOf scenarioBody)) = [413]
      <-> 3000 < len [x68; x69]).
Proof.
  apply (raw_payload_limit_is_3000 "pkg" decodePushRequest
           (providerAccepts "msg-1") (pushRequestOf scenarioBody)
           (mkPushRequest "abc" "u1" [x68; x69] false));
    run_model.
Defined.

Lemma sent_payload_within_limit_witness :
  List.Forall
    (fun m =>
       exists data,
         messaging.Data m !! "payload" = Some data
         /\ Z.of_nat (String.length data) <= 4000
         /\ messaging.RestrictedPackageName (messaging.Android m) = "pkg")
    (sends (serve "pkg" decodePushRequest (providerAccepts "msg-1")
              (pushRequestOf scenarioBody))).
Proof.
  apply (sent_payload_within_limit "pkg" decodePushRequest
           (providerAccepts "msg-1") (pushRequestOf scenarioBody)).
  intros pr H. vm_compute in H. injection H as <-. run_model.
Defined.

Lemma log_line_of_outcome_witness :
  logs (serve "pkg" decodePushRequest (providerFails "SenderId mismatch")
          (pushRequestOf scenarioBody))
  = [zerolog.mkLine zerolog.ErrorLevel
       [("error", "SenderId mismatch"); ("push_token", "abc");
        ("owner", "u1")]
       "Failed to send FCM request"].
Proof.
  apply (log_line_of_outcome "pkg" decodePushRequest
           (providerFails "SenderId mismatch") (pushRequestOf scenarioBody)
           (mkPushRequest "abc" "u1" [x68; x69] false)).
  run_model.
Defined.


Lemma decode_bodyOf_witness :
  decodePushRequest (bodyOf "abc" "u1" [x68; x69] true)
    = Ok (mkPushRequest "abc" "u1" [x68; x69] true)
  /\ (forall token' owner' payload' high',
        plain token' = true -> plain owner' = true ->
        bodyOf token' owner' payload' high' = bodyOf "abc" "u1" [x68; x69] true ->
        mkPushRequest token' owner' payload' high'
        = mkPushRequest "abc" "u1" [x68; x69] true).
Proof.
  apply (decode_bodyOf "abc" "u1" [x68; x69] true); reflexivity.
Defined.

Lemma push_is_relayed_witness :
  sends (serve "pkg" decodePushRequest (providerAccepts "msg-1")
           (pushRequestOf (bodyOf "abc" "u1" [x68; x69] true)))
    = [messaging.mkMessage {[ "payload" := "aGk=" ]}
         (messaging.mkAndroidConfig "pkg" "high") "abc"]
  /\ statuses (serve "pkg" decodePushRequest (providerAccepts "msg-1")
                 (pushRequestOf (bodyOf "abc" "u1" [x68; x69] true)))
     = [200].
Proof.
  apply (push_is_relayed "pkg" (providerAccepts "msg-1") "abc" "u1"
           [x68; x69] true "msg-1");
    run_model.
Defined.
